(** * AutoClicker: the click loop, the hotkey table and the numeric fields

    A shallow embedding of the non-presentational logic of
    [autoclicker.py]: the [ClickerEngine] with its worker loop, the
    [HotkeyManager] dispatch table, and the parts of [AutoClickerGUI] that
    drive them ([_get_float_value], [_on_tab_change], [_setup_hotkeys]).

    Python floats are IEEE 754 binary64 numbers ([SpecFloat] at precision
    53); the worker thread is a labelled step function over the shared
    engine state, and a run of the program is an interleaving of method
    calls and worker steps. *)

From Stdlib Require Import ZArith NArith Bool List String Ascii Lia.
From Stdlib Require Import Floats.SpecFloat.
From stdpp Require Import base option list gmap strings pretty.
Import ListNotations.

Local Open Scope Z_scope.

(* ===================================================================== *)
(** * Python values: floats, exceptions, [float(str)]                     *)
(* ===================================================================== *)

Module Py.

(** ** binary64 arithmetic *)

Definition float : Type := spec_float.

Definition prec : Z := 53.
Definition emax : Z := 1024.

Definition zero : float := S754_zero false.
Definition inf (neg : bool) : float := S754_infinity neg.
Definition nan : float := S754_nan.

Definition add : float -> float -> float := SFadd prec emax.
Definition div : float -> float -> float := SFdiv prec emax.
(** [lt a b] is [a < b], [le a b] is [a <= b], [gt a b] is [a > b]; every
    comparison with a NaN is false. *)
Definition lt : float -> float -> bool := SFltb.
Definition le : float -> float -> bool := SFleb.
Definition gt (a b : float) : bool := SFltb b a.

(** The binary64 number nearest to [m * 10^e] (ties to even), negated when
    [neg]: the value of a decimal literal. *)
Definition decimal (neg : bool) (m : N) (e : Z) : float :=
  match m with
  | N0 => S754_zero neg
  | Npos p =>
      if 0 <=? e
      then binary_round prec emax neg (p * Z.to_pos (10 ^ e))%positive 0
      else SFdiv prec emax (S754_finite neg p 0)
                           (S754_finite false (Z.to_pos (10 ^ (- e))) 0)
  end.

(** The literals of the source. *)
Definition f_1_0 : float := Eval vm_compute in decimal false 1 0.
Definition f_0_05 : float := Eval vm_compute in decimal false 5 (-2).
Definition f_0_1 : float := Eval vm_compute in decimal false 1 (-1).
Definition f_0_5 : float := Eval vm_compute in decimal false 5 (-1).
Definition f_10_0 : float := Eval vm_compute in decimal false 10 0.

Definition mul : float -> float -> float := SFmul prec emax.

(** [time.sleep(d)] turns [d] into a signed 64-bit count of nanoseconds:
    it raises ValueError on a NaN or a negative [d] and OverflowError when
    [d * 1e9] does not lie below [2^63].  These are the checks made before
    the operating system is asked to wait; the wait itself is taken to
    succeed, although a system may still refuse one whose end lies past
    what its clock holds. *)
Definition f_1e9 : float := Eval vm_compute in decimal false 1 9.
Definition f_2_63 : float :=
  Eval vm_compute in binary_round prec emax false 1 63.

Definition sleep_raises (d : float) : bool :=
  lt d zero || negb (lt (mul d f_1e9) f_2_63).

(** ** Exceptions *)

Inductive exn : Type := ValueError | OverflowError.

Inductive result (A : Type) : Type :=
| Returns (a : A)
| Raises (x : exn).
Arguments Returns {A} a.
Arguments Raises {A} x.

(** ** [float(s)] for a string [s]

    A string is its sequence of code points, here those below 256 (one
    [ascii] each).  The steps are CPython's: non-ASCII text is first
    brought to ASCII, underscores between digits are dropped, surrounding
    white space is stripped and the rest must be a decimal literal, an
    infinity or a NaN, read to its last character. *)

Definition code (c : ascii) : N := N_of_ascii c.

Definition is_digit (c : ascii) : bool :=
  ((48 <=? code c) && (code c <=? 57))%N.

Definition digit (c : ascii) : N := (code c - 48)%N.

(** White space of the C locale: space, \t, \n, \v, \f, \r. *)
Definition Py_ISSPACE (c : ascii) : bool :=
  ((code c =? 32) || ((9 <=? code c) && (code c <=? 13)))%N.

(** Unicode white space among the code points 127..255: NEL and NBSP. *)
Definition Py_UNICODE_ISSPACE_high (c : ascii) : bool :=
  ((code c =? 133) || (code c =? 160))%N.

Definition to_lower (c : ascii) : ascii :=
  if ((65 <=? code c) && (code c <=? 90))%N
  then ascii_of_N (code c + 32) else c.

Definition is_ascii (s : list ascii) : bool :=
  forallb (fun c => (code c <? 128)%N) s.

(** No code point in 127..255 is a decimal digit, so there the conversion
    meets either white space or a character it replaces by '?' before it
    stops. *)
Fixpoint transform_chars (s : list ascii) : list ascii :=
  match s with
  | [] => []
  | c :: s' =>
      if (code c <? 127)%N then c :: transform_chars s'
      else if Py_UNICODE_ISSPACE_high c then " "%char :: transform_chars s'
      else ["?"%char]
  end.

Definition _PyUnicode_TransformDecimalAndSpaceToASCII (s : list ascii)
  : list ascii :=
  if is_ascii s then s else transform_chars s.

Definition is_underscore (c : ascii) : bool := Ascii.eqb c "_"%char.

(** An underscore must stand between two digits; [prev] is the character
    before [s]. [None] is the error exit. *)
Fixpoint drop_underscores (prev : ascii) (s : list ascii)
  : option (list ascii) :=
  match s with
  | [] => if is_underscore prev then None else Some []
  | c :: s' =>
      if is_underscore c then
        if is_digit prev then drop_underscores c s' else None
      else if is_underscore prev && negb (is_digit c) then None
      else option_map (cons c) (drop_underscores c s')
  end.

Definition without_underscores (s : list ascii) : option (list ascii) :=
  if existsb is_underscore s then drop_underscores Ascii.zero s else Some s.

Fixpoint lstrip (s : list ascii) : list ascii :=
  match s with
  | c :: s' => if Py_ISSPACE c then lstrip s' else s
  | [] => []
  end.

Definition rstrip (s : list ascii) : list ascii := rev (lstrip (rev s)).

(** The longest prefix of digits, and what follows it. *)
Fixpoint span_digits (s : list ascii) : list ascii * list ascii :=
  match s with
  | c :: s' =>
      if is_digit c
      then let (ds, r) := span_digits s' in (c :: ds, r)
      else ([], s)
  | [] => ([], [])
  end.

Definition digits_value (ds : list ascii) : N :=
  fold_left (fun a c => (10 * a + digit c)%N) ds 0%N.

Definition parse_sign (s : list ascii) : bool * list ascii :=
  match s with
  | c :: r =>
      if Ascii.eqb c "-"%char then (true, r)
      else if Ascii.eqb c "+"%char then (false, r)
      else (false, s)
  | [] => (false, s)
  end.

(** [e], an optional sign and at least one digit; anything else is left
    unread and the exponent is 0. *)
Definition parse_exponent (s : list ascii) : Z * list ascii :=
  match s with
  | c :: r =>
      if Ascii.eqb (to_lower c) "e"%char then
        let (neg, r1) := parse_sign r in
        let (ds, r2) := span_digits r1 in
        match ds with
        | [] => (0, s)
        | _ => let v := Z.of_N (digits_value ds) in
               ((if neg then - v else v), r2)
        end
      else (0, s)
  | [] => (0, s)
  end.

(** A decimal literal at the head of [s]: its value and the unread rest;
    [None] when no digit was read. *)
Definition _Py_dg_strtod (s : list ascii) : option (float * list ascii) :=
  let (neg, r) := parse_sign s in
  let (ip, r1) := span_digits r in
  let (fp, r2) :=
    match r1 with
    | c :: r' => if Ascii.eqb c "."%char then span_digits r' else ([], r1)
    | [] => ([], r1)
    end in
  match ip ++ fp with
  | [] => None
  | ds =>
      let (ex, r3) := parse_exponent r2 in
      Some (decimal neg (digits_value ds) (ex - Z.of_nat (length fp)), r3)
  end.

(** [t] is in lower case; the match ignores the case of [s]. *)
Fixpoint case_insensitive_match (s t : list ascii) : option (list ascii) :=
  match t with
  | [] => Some s
  | ct :: t' =>
      match s with
      | cs :: s' =>
          if Ascii.eqb (to_lower cs) ct then case_insensitive_match s' t'
          else None
      | [] => None
      end
  end.

Definition _Py_parse_inf_or_nan (s : list ascii)
  : option (float * list ascii) :=
  let (neg, r) := parse_sign s in
  match case_insensitive_match r (list_ascii_of_string "inf") with
  | Some r1 =>
      match case_insensitive_match r1 (list_ascii_of_string "inity") with
      | Some r2 => Some (inf neg, r2)
      | None => Some (inf neg, r1)
      end
  | None =>
      match case_insensitive_match r (list_ascii_of_string "nan") with
      | Some r1 => Some (nan, r1)
      | None => None
      end
  end.

Definition PyOS_string_to_double (s : list ascii)
  : option (float * list ascii) :=
  match _Py_dg_strtod s with
  | Some v => Some v
  | None => _Py_parse_inf_or_nan s
  end.

Definition float_from_string_inner (s : list ascii) : result float :=
  match lstrip s with
  | [] => Raises ValueError
  | s1 =>
      match PyOS_string_to_double (rstrip s1) with
      | Some (x, []) => Returns x
      | _ => Raises ValueError
      end
  end.

(** ** [str.lower()] and [str.upper()]

    The case mappings follow the Unicode tables; nothing below depends on
    what they map, so they are an interface.  [ascii_case] maps the ASCII
    letters, which is what Python does on ASCII text. *)
Class StrCase : Type := {
  lower : string -> string;
  upper : string -> string
}.

Definition to_upper (c : ascii) : ascii :=
  if ((97 <=? code c) && (code c <=? 122))%N
  then ascii_of_N (code c - 32) else c.

Fixpoint map_string (f : ascii -> ascii) (s : string) : string :=
  match s with
  | EmptyString => EmptyString
  | String c s' => String (f c) (map_string f s')
  end.

Definition ascii_case : StrCase :=
  {| lower := map_string to_lower; upper := map_string to_upper |}.

Definition float_of_str (s : string) : result float :=
  match without_underscores
          (_PyUnicode_TransformDecimalAndSpaceToASCII (list_ascii_of_string s))
  with
  | Some s' => float_from_string_inner s'
  | None => Raises ValueError
  end.

End Py.


(* ===================================================================== *)
(** * ClickerEngine                                                       *)
(* ===================================================================== *)

Module Engine.
Import Py.

Section WithCallable.

(** The callables handed to the engine are opaque: calling one is an
    observable event. *)
Context {Callable : Type}.

(** The fields of [ClickerEngine]; [click_thread] holds the identifier of
    the last thread started, [_stop_event] whether the event is set.  The
    two input controllers are devices: a click is an event of the run. *)
Record ClickerEngine : Type := {
  is_clicking : bool;
  click_thread : option nat;
  _stop_event : bool;
  click_count : N;
  on_click_callback : option Callable
}.

Definition __init__ : ClickerEngine :=
  {| is_clicking := false; click_thread := None; _stop_event := false;
     click_count := 0%N; on_click_callback := None |}.

Definition set_click_callback (callback : Callable) (self : ClickerEngine)
  : ClickerEngine :=
  {| is_clicking := is_clicking self; click_thread := click_thread self;
     _stop_event := _stop_event self; click_count := click_count self;
     on_click_callback := Some callback |}.

(** Returns the new state and the callback invocation made, if any. *)
Definition reset_click_count (self : ClickerEngine)
  : ClickerEngine * option (Callable * N) :=
  let self' :=
    {| is_clicking := is_clicking self; click_thread := click_thread self;
       _stop_event := _stop_event self; click_count := 0%N;
       on_click_callback := on_click_callback self |} in
  (self', option_map (fun cb => (cb, click_count self'))
                     (on_click_callback self')).

(** ** The worker: [click_loop] *)

(** Program points of [click_loop], one per statement that reads or writes
    shared state, sleeps or clicks. *)
Inductive pc : Type :=
| AtEntry        (* if delay > 0: elapsed = 0 *)
| AtDelayTest    (* while elapsed < delay and not self._stop_event.is_set() *)
| AtDelaySleep   (* time.sleep(0.05); elapsed += 0.05 *)
| AtInterval     (* interval = 1.0 / clicks_per_sec if ... else 0.1 *)
| AtLoopTest     (* while not self._stop_event.is_set() *)
| AtClick        (* self.mouse_controller.click(Button.left) *)
| AtCount        (* self.click_count += 1 *)
| AtCallback     (* if self.on_click_callback: ...(self.click_count) *)
| AtSleep        (* time.sleep(interval) *)
| AtExit         (* self.is_clicking = False *)
| Finished
| Died.          (* an exception ended the thread *)

(** The closure variables [clicks_per_sec] and [delay] and the locals
    [elapsed] and [interval] (0 until assigned). *)
Record worker : Type := {
  clicks_per_sec : float;
  delay : float;
  elapsed : float;
  interval : float;
  at_pc : pc
}.

Definition spawn (cps d : float) : worker :=
  {| clicks_per_sec := cps; delay := d; elapsed := zero; interval := zero;
     at_pc := AtEntry |}.

Definition goto (p : pc) (w : worker) : worker :=
  {| clicks_per_sec := clicks_per_sec w; delay := delay w;
     elapsed := elapsed w; interval := interval w; at_pc := p |}.

Definition set_elapsed (x : float) (w : worker) : worker :=
  {| clicks_per_sec := clicks_per_sec w; delay := delay w;
     elapsed := x; interval := interval w; at_pc := at_pc w |}.

Definition set_interval (x : float) (w : worker) : worker :=
  {| clicks_per_sec := clicks_per_sec w; delay := delay w;
     elapsed := elapsed w; interval := x; at_pc := at_pc w |}.

Inductive phase : Type := Delay | Repeat.

(** What a step of the worker does. *)
Inductive label : Type :=
| LDelayTest (positive : bool)          (* [delay > 0] evaluated *)
| LElapsed                              (* [elapsed < delay] found false *)
| LPoll (ph : phase) (set : bool)       (* [_stop_event.is_set()] read *)
| LSleep (ph : phase) (d : float)       (* [time.sleep(d)] returned *)
| LSleepRaised (ph : phase) (d : float) (* [time.sleep(d)] raised *)
| LInterval (d : float)                 (* [interval] assigned *)
| LClick                                (* left click sent *)
| LCount (n : N)                        (* [click_count] now [n] *)
| LCallback (cb : option Callable) (n : N)
| LExit.                                (* [is_clicking] cleared *)

Definition time_sleep (ph : phase) (d : float) (next : pc) (w : worker)
  : worker * label :=
  if sleep_raises d then (goto Died w, LSleepRaised ph d)
  else (goto next w, LSleep ph d).

Definition compute_interval (cps : float) : float :=
  if gt cps zero then div f_1_0 cps else f_0_1.

(** One step of [click_loop] against the current engine state; [None]
    once the thread has ended.  [self.click_count += 1] reads and writes
    the count in one step: that is what the statement does as long as no
    other loop and no reset writes the count between its read and its
    write. *)
Definition worker_step (self : ClickerEngine) (w : worker)
  : option (ClickerEngine * worker * label) :=
  match at_pc w with
  | AtEntry =>
      if gt (delay w) zero
      then Some (self, goto AtDelayTest (set_elapsed zero w), LDelayTest true)
      else Some (self, goto AtInterval w, LDelayTest false)
  | AtDelayTest =>
      if lt (elapsed w) (delay w) then
        if _stop_event self
        then Some (self, goto AtInterval w, LPoll Delay true)
        else Some (self, goto AtDelaySleep w, LPoll Delay false)
      else Some (self, goto AtInterval w, LElapsed)
  | AtDelaySleep =>
      let (w', l) :=
        time_sleep Delay f_0_05 AtDelayTest
                   (set_elapsed (add (elapsed w) f_0_05) w) in
      Some (self, w', l)
  | AtInterval =>
      let i := compute_interval (clicks_per_sec w) in
      Some (self, goto AtLoopTest (set_interval i w), LInterval i)
  | AtLoopTest =>
      if _stop_event self
      then Some (self, goto AtExit w, LPoll Repeat true)
      else Some (self, goto AtClick w, LPoll Repeat false)
  | AtClick => Some (self, goto AtCount w, LClick)
  | AtCount =>
      let n := (click_count self + 1)%N in
      Some ({| is_clicking := is_clicking self;
               click_thread := click_thread self;
               _stop_event := _stop_event self; click_count := n;
               on_click_callback := on_click_callback self |},
            goto AtCallback w, LCount n)
  | AtCallback =>
      Some (self, goto AtSleep w,
            LCallback (on_click_callback self) (click_count self))
  | AtSleep =>
      let (w', l) := time_sleep Repeat (interval w) AtLoopTest w in
      Some (self, w', l)
  | AtExit =>
      Some ({| is_clicking := false; click_thread := click_thread self;
               _stop_event := _stop_event self;
               click_count := click_count self;
               on_click_callback := on_click_callback self |},
            goto Finished w, LExit)
  | Finished | Died => None
  end.

(** ** [start_clicking] and [stop_clicking] *)

(** [tid] names the thread object created; the second component is the
    worker started, if any. *)
Definition start_clicking (cps d : float) (tid : nat) (self : ClickerEngine)
  : ClickerEngine * option worker :=
  if is_clicking self then (self, None)
  else ({| is_clicking := true; click_thread := Some tid;
           _stop_event := false; click_count := click_count self;
           on_click_callback := on_click_callback self |},
        Some (spawn cps d)).

Definition stop_clicking (self : ClickerEngine) : ClickerEngine :=
  {| is_clicking := false; click_thread := click_thread self;
     _stop_event := true; click_count := click_count self;
     on_click_callback := on_click_callback self |}.

(** ** Runs: method calls interleaved with worker steps

    A method call is one action and a worker advances by one statement
    per action; the threads of a run are numbered in the order they were
    started. *)

Record system : Type := {
  shared : ClickerEngine;
  threads : list worker
}.

Definition boot : system := {| shared := __init__; threads := [] |}.

Inductive action : Type :=
| CallSetCallback (cb : Callable)
| CallReset
| CallStart (cps d : float)
| CallStop
| Step (tid : nat).

Inductive event : Type :=
| EvSetCallback (cb : Callable)
| EvReset (notified : option (Callable * N))
| EvStart (cps d : float) (spawned : option nat)
| EvStop
| EvStep (tid : nat) (l : label).

(** A step of a thread that does not exist or has ended does nothing. *)
Definition sys_step (a : action) (s : system) : system * option event :=
  match a with
  | CallSetCallback cb =>
      ({| shared := set_click_callback cb (shared s);
          threads := threads s |}, Some (EvSetCallback cb))
  | CallReset =>
      let (e, note) := reset_click_count (shared s) in
      ({| shared := e; threads := threads s |}, Some (EvReset note))
  | CallStart cps d =>
      let tid := length (threads s) in
      match start_clicking cps d tid (shared s) with
      | (e, Some w) =>
          ({| shared := e; threads := threads s ++ [w] |},
           Some (EvStart cps d (Some tid)))
      | (e, None) =>
          ({| shared := e; threads := threads s |},
           Some (EvStart cps d None))
      end
  | CallStop =>
      ({| shared := stop_clicking (shared s); threads := threads s |},
       Some EvStop)
  | Step tid =>
      match threads s !! tid with
      | Some w =>
          match worker_step (shared s) w with
          | Some (e, w', l) =>
              ({| shared := e; threads := <[tid := w']> (threads s) |},
               Some (EvStep tid l))
          | None => (s, None)
          end
      | None => (s, None)
      end
  end.

Fixpoint run (acts : list action) (s : system) : system * list event :=
  match acts with
  | [] => (s, [])
  | a :: acts' =>
      let (s1, ev) := sys_step a s in
      let (s2, tr) := run acts' s1 in
      (s2, match ev with Some x => x :: tr | None => tr end)
  end.

(** The labels of thread [tid] in a trace, in order. *)
Fixpoint labels_of (tid : nat) (tr : list event) : list label :=
  match tr with
  | [] => []
  | EvStep t l :: tr' =>
      if Nat.eqb t tid then l :: labels_of tid tr' else labels_of tid tr'
  | _ :: tr' => labels_of tid tr'
  end.

(** The runs of one worker, whatever the other threads do to the engine
    between its steps. *)
Inductive path : worker -> list label -> worker -> Prop :=
| path_nil w : path w [] w
| path_step self self' w w' l ls w'' :
    worker_step self w = Some (self', w', l) ->
    path w' ls w'' ->
    path w (l :: ls) w''.

(** The program point a label is taken at, and the one it leads to. *)
Definition src (l : label) : pc :=
  match l with
  | LDelayTest _ => AtEntry
  | LElapsed | LPoll Delay _ => AtDelayTest
  | LSleep Delay _ | LSleepRaised Delay _ => AtDelaySleep
  | LInterval _ => AtInterval
  | LPoll Repeat _ => AtLoopTest
  | LClick => AtClick
  | LCount _ => AtCount
  | LCallback _ _ => AtCallback
  | LSleep Repeat _ | LSleepRaised Repeat _ => AtSleep
  | LExit => AtExit
  end.

Definition tgt (l : label) : pc :=
  match l with
  | LDelayTest true => AtDelayTest
  | LDelayTest false | LElapsed | LPoll Delay true => AtInterval
  | LPoll Delay false => AtDelaySleep
  | LSleep Delay _ => AtDelayTest
  | LSleepRaised _ _ => Died
  | LInterval _ => AtLoopTest
  | LPoll Repeat false => AtClick
  | LPoll Repeat true => AtExit
  | LClick => AtCount
  | LCount _ => AtCallback
  | LCallback _ _ => AtSleep
  | LSleep Repeat _ => AtLoopTest
  | LExit => Finished
  end.

Definition trace (acts : list action) : list event := snd (run acts boot).

(** The events of an action, as a list. *)
Definition olist (o : option event) : list event :=
  match o with Some x => [x] | None => [] end.

(** The four things an action can be. *)
Inductive step_kind (s s1 : system) : option event -> Prop :=
| kind_idle : s1 = s -> step_kind s s1 None
| kind_step tid w w' l :
    threads s !! tid = Some w ->
    worker_step (shared s) w = Some (shared s1, w', l) ->
    threads s1 = <[tid := w']> (threads s) ->
    step_kind s s1 (Some (EvStep tid l))
| kind_spawn cps d :
    is_clicking (shared s) = false ->
    is_clicking (shared s1) = true ->
    _stop_event (shared s1) = false ->
    threads s1 = threads s ++ [spawn cps d] ->
    step_kind s s1 (Some (EvStart cps d (Some (length (threads s)))))
| kind_call ev :
    threads s1 = threads s ->
    (forall tid l, ev <> EvStep tid l) ->
    (forall cps d t, ev <> EvStart cps d (Some t)) ->
    (_stop_event (shared s) = true -> _stop_event (shared s1) = true) ->
    (is_clicking (shared s1) <> is_clicking (shared s) ->
     (exists cps d, ev = EvStart cps d None) \/ ev = EvStop) ->
    step_kind s s1 (Some ev).

(** Program points of the repeat phase. *)
Definition in_repeat (p : pc) : bool :=
  match p with
  | AtLoopTest | AtClick | AtCount | AtCallback | AtSleep => true
  | _ => false
  end.

(** Program points from which, with the stop signal set, the loop only
    runs to its end. *)
Definition leaving (p : pc) : bool :=
  match p with
  | AtInterval | AtLoopTest | AtExit | Finished | Died => true
  | _ => false
  end.

(** Thread [tid] is on its way out and the signal is set. *)
Definition stopping (tid : nat) (s : system) : Prop :=
  _stop_event (shared s) = true /\
  exists w, threads s !! tid = Some w /\ leaving (at_pc w) = true.

(** A worker started for the rate [R]. *)
Definition tuned (R : float) (w : worker) : Prop :=
  clicks_per_sec w = R /\
  (in_repeat (at_pc w) = true -> interval w = compute_interval R).

End WithCallable.

Arguments ClickerEngine : clear implicits.
Arguments worker : clear implicits.
Arguments system : clear implicits.
Arguments action : clear implicits.
Arguments event : clear implicits.
Arguments label : clear implicits.

End Engine.


(* ===================================================================== *)
(** * HotkeyManager                                                       *)
(* ===================================================================== *)

Module Hotkeys.
Import Py.

(** A key as the listener delivers it: a member of pynput's [Key]
    enumeration (with its [name]), a [KeyCode] (with [char], [vk] and its
    [str()]), or some other object (with its [str()]). *)
Inductive key : Type :=
| Key (name : string)
| KeyCode (char : option string) (vk : option Z) (str : string)
| OtherKey (str : string).

(** Mouse buttons; only [left] is told apart. *)
Inductive Button : Type := left | middle | right.

Definition Button_eqb (a b : Button) : bool :=
  match a, b with
  | left, left | middle, middle | right, right => true
  | _, _ => false
  end.

Section WithCallables.

Context `{StrCase}.
(** [Handler]: hotkey callbacks, called with "press" or "release";
    [Recorder]: recording callbacks, called with a key name. *)
Context {Handler Recorder : Type}.

(** The fields of [HotkeyManager] (the two listeners are threads of the
    input library: they deliver the events below). *)
Record HotkeyManager : Type := {
  pressed_keys : gset string;
  callbacks : gmap string Handler;
  recording_callback : option Recorder;
  is_recording : bool
}.

Inductive invocation : Type :=
| Handled (h : Handler) (event_type : string)
| Recorded (r : Recorder) (key_name : string).

Definition __init__ : HotkeyManager :=
  {| pressed_keys := ∅; callbacks := ∅; recording_callback := None;
     is_recording := false |}.

Definition set_callbacks (c : gmap string Handler) (self : HotkeyManager)
  : HotkeyManager :=
  {| pressed_keys := pressed_keys self; callbacks := c;
     recording_callback := recording_callback self;
     is_recording := is_recording self |}.

Definition set_pressed_keys (p : gset string) (self : HotkeyManager)
  : HotkeyManager :=
  {| pressed_keys := p; callbacks := callbacks self;
     recording_callback := recording_callback self;
     is_recording := is_recording self |}.

Definition register_hotkey (key_name : string) (callback : Handler)
    (self : HotkeyManager) : HotkeyManager :=
  set_callbacks (<[lower key_name := callback]> (callbacks self)) self.

Definition unregister_hotkey (key_name : string) (self : HotkeyManager)
  : HotkeyManager :=
  let key_lower := lower key_name in
  match callbacks self !! key_lower with
  | Some _ => set_callbacks (delete key_lower (callbacks self)) self
  | None => self
  end.

Definition start_recording (callback : Recorder) (self : HotkeyManager)
  : HotkeyManager :=
  {| pressed_keys := pressed_keys self; callbacks := callbacks self;
     recording_callback := Some callback; is_recording := true |}.

(** A string is true when it is not empty, an integer when it is not 0. *)
Definition _key_to_name (k : key) : string :=
  match k with
  | Key name => upper name
  | KeyCode char vk str =>
      match char, vk with
      | Some (String _ _ as c), _ => upper c
      | _, Some v => if v =? 0 then str else "VK_" +:+ pretty v
      | _, None => str
      end
  | OtherKey str => str
  end.

(** Look up [name] and call what is registered with [event_type]. *)
Definition dispatch (name event_type : string) (self : HotkeyManager)
  : list invocation :=
  match callbacks self !! name with
  | Some h => [Handled h event_type]
  | None => []
  end.

Definition _on_key_press (k : key) (self : HotkeyManager)
  : HotkeyManager * list invocation :=
  let key_name := _key_to_name k in
  if is_recording self then
    ({| pressed_keys := pressed_keys self; callbacks := callbacks self;
        recording_callback := recording_callback self;
        is_recording := false |},
     match recording_callback self with
     | Some r => [Recorded r key_name]
     | None => []
     end)
  else
    let self' :=
      set_pressed_keys ({[ lower key_name ]} ∪ pressed_keys self) self in
    (self', dispatch (lower key_name) "press" self').

Definition _on_key_release (k : key) (self : HotkeyManager)
  : HotkeyManager * list invocation :=
  let key_name := _key_to_name k in
  let self' := set_pressed_keys (pressed_keys self ∖ {[ lower key_name ]}) self in
  (self', dispatch (lower key_name) "release" self').

Definition _on_mouse_click (x y : Z) (button : Button) (pressed : bool)
    (self : HotkeyManager) : bool * list invocation :=
  (true,
   if Button_eqb button left then
     if pressed then dispatch "m1" "press" self
     else dispatch "m1" "release" self
   else []).

Definition is_key_pressed (key_name : string) (self : HotkeyManager) : bool :=
  bool_decide (lower key_name ∈ pressed_keys self).

End WithCallables.

Arguments HotkeyManager : clear implicits.
Arguments invocation : clear implicits.

End Hotkeys.

(* ===================================================================== *)
(** * AutoClickerGUI: the logic behind the widgets                        *)
(* ===================================================================== *)

Module Gui.
Import Py.

Inductive ClickMode : Type := AUTOCLICK | KEYBIND | NORMAL.

Record AutoClickSettings : Type := {
  ac_start_delay : float;
  ac_clicks_per_sec : float;
  kill_hotkey : string
}.

Record KeybindSettings : Type := {
  kb_clicks_per_sec : float;
  autoclick_hotkey : string
}.

Record NormalSettings : Type := {
  nm_clicks_per_sec : float;
  nm_start_delay : float
}.

Definition AutoClickSettings_default : AutoClickSettings :=
  {| ac_start_delay := f_1_0; ac_clicks_per_sec := f_10_0;
     kill_hotkey := "F6" |}.

Definition KeybindSettings_default : KeybindSettings :=
  {| kb_clicks_per_sec := f_10_0; autoclick_hotkey := "F7" |}.

Definition NormalSettings_default : NormalSettings :=
  {| nm_clicks_per_sec := f_10_0; nm_start_delay := f_0_5 |}.

(** The callables the window hands out: the three closures of
    [_setup_hotkeys], the click-counter update, and the lambda given to
    [start_recording] for a mode. *)
Inductive hotkey_handler : Type :=
| autoclick_hotkey_handler
| keybind_hotkey_handler
| normal_mode_handler.

Inductive click_callback : Type := _update_click_counter.

Inductive recorder : Type := set_hotkey_for (mode : string).

(** What the widgets show. *)
Inductive start_button : Type := ShowsStart | ShowsStop.
Inductive enable_button : Type := ShowsEnable | ShowsDisable.
Inductive status : Type :=
| StatusClicking
| StatusMode (mode_text : string)
| StatusInactive.

Record AutoClickerGUI : Type := {
  autoclick_settings : AutoClickSettings;
  keybind_settings : KeybindSettings;
  normal_settings : NormalSettings;
  engine : Engine.ClickerEngine click_callback;
  hotkey_manager : Hotkeys.HotkeyManager hotkey_handler recorder;
  current_mode : ClickMode;
  is_active : bool;
  (* widgets *)
  autoclick_hotkey_var : string;
  keybind_hotkey_var : string;
  autoclick_start_btn : start_button;
  keybind_enable_btn : enable_button;
  normal_enable_btn : enable_button;
  status_label : status;
  notebook_selected : nat
}.

(** ** [_get_float_value] *)

(** [try: ... except ValueError: return default]: any other exception
    would pass through. *)
Definition _get_float_value (value : string) (default : float)
  : result float :=
  let body :=
    match float_of_str value with
    | Returns r => if le r zero then Raises ValueError else Returns r
    | Raises x => Raises x
    end in
  match body with
  | Raises ValueError => Returns default
  | other => other
  end.

(** ** [_update_status] and [_on_tab_change] *)

Definition set_status (st : status) (self : AutoClickerGUI)
  : AutoClickerGUI :=
  {| autoclick_settings := autoclick_settings self;
     keybind_settings := keybind_settings self;
     normal_settings := normal_settings self;
     engine := engine self; hotkey_manager := hotkey_manager self;
     current_mode := current_mode self; is_active := is_active self;
     autoclick_hotkey_var := autoclick_hotkey_var self;
     keybind_hotkey_var := keybind_hotkey_var self;
     autoclick_start_btn := autoclick_start_btn self;
     keybind_enable_btn := keybind_enable_btn self;
     normal_enable_btn := normal_enable_btn self;
     status_label := st; notebook_selected := notebook_selected self |}.

Definition _update_status (is_clicking : bool) (mode_text : option string)
    (self : AutoClickerGUI) : AutoClickerGUI :=
  if is_clicking then set_status StatusClicking self
  else match mode_text with
       | Some (String _ _ as t) => set_status (StatusMode t) self
       | _ => set_status StatusInactive self
       end.

Definition _on_tab_change (self : AutoClickerGUI) : AutoClickerGUI :=
  let tab_index := notebook_selected self in
  _update_status false None
    {| autoclick_settings := autoclick_settings self;
       keybind_settings := keybind_settings self;
       normal_settings := normal_settings self;
       engine := Engine.stop_clicking (engine self);
       hotkey_manager := hotkey_manager self;
       current_mode :=
         match tab_index with
         | O => AUTOCLICK
         | S O => KEYBIND
         | _ => NORMAL
         end;
       is_active := false;
       autoclick_hotkey_var := autoclick_hotkey_var self;
       keybind_hotkey_var := keybind_hotkey_var self;
       autoclick_start_btn := ShowsStart;
       keybind_enable_btn := ShowsEnable;
       normal_enable_btn := ShowsEnable;
       status_label := status_label self;
       notebook_selected := notebook_selected self |}.

(** ** [_setup_hotkeys] and [_set_hotkey] *)

Section WithCase.
Context `{StrCase}.

Definition set_hotkey_manager
    (m : Hotkeys.HotkeyManager hotkey_handler recorder)
    (self : AutoClickerGUI) : AutoClickerGUI :=
  {| autoclick_settings := autoclick_settings self;
     keybind_settings := keybind_settings self;
     normal_settings := normal_settings self;
     engine := engine self; hotkey_manager := m;
     current_mode := current_mode self; is_active := is_active self;
     autoclick_hotkey_var := autoclick_hotkey_var self;
     keybind_hotkey_var := keybind_hotkey_var self;
     autoclick_start_btn := autoclick_start_btn self;
     keybind_enable_btn := keybind_enable_btn self;
     normal_enable_btn := normal_enable_btn self;
     status_label := status_label self;
     notebook_selected := notebook_selected self |}.

Definition _setup_hotkeys (self : AutoClickerGUI) : AutoClickerGUI :=
  let m0 := Hotkeys.set_callbacks ∅ (hotkey_manager self) in
  let m1 := Hotkeys.register_hotkey
              (kill_hotkey (autoclick_settings self))
              autoclick_hotkey_handler m0 in
  let m2 := Hotkeys.register_hotkey
              (autoclick_hotkey (keybind_settings self))
              keybind_hotkey_handler m1 in
  let m3 := Hotkeys.register_hotkey "m1" normal_mode_handler m2 in
  set_hotkey_manager m3 self.

Definition _set_hotkey (mode key : string) (self : AutoClickerGUI)
  : AutoClickerGUI :=
  let self' :=
    if String.eqb mode "autoclick" then
      {| autoclick_settings :=
           {| ac_start_delay := ac_start_delay (autoclick_settings self);
              ac_clicks_per_sec :=
                ac_clicks_per_sec (autoclick_settings self);
              kill_hotkey := key |};
         keybind_settings := keybind_settings self;
         normal_settings := normal_settings self;
         engine := engine self; hotkey_manager := hotkey_manager self;
         current_mode := current_mode self; is_active := is_active self;
         autoclick_hotkey_var := key;
         keybind_hotkey_var := keybind_hotkey_var self;
         autoclick_start_btn := autoclick_start_btn self;
         keybind_enable_btn := keybind_enable_btn self;
         normal_enable_btn := normal_enable_btn self;
         status_label := status_label self;
         notebook_selected := notebook_selected self |}
    else if String.eqb mode "keybind" then
      {| autoclick_settings := autoclick_settings self;
         keybind_settings :=
           {| kb_clicks_per_sec := kb_clicks_per_sec (keybind_settings self);
              autoclick_hotkey := key |};
         normal_settings := normal_settings self;
         engine := engine self; hotkey_manager := hotkey_manager self;
         current_mode := current_mode self; is_active := is_active self;
         autoclick_hotkey_var := autoclick_hotkey_var self;
         keybind_hotkey_var := key;
         autoclick_start_btn := autoclick_start_btn self;
         keybind_enable_btn := keybind_enable_btn self;
         normal_enable_btn := normal_enable_btn self;
         status_label := status_label self;
         notebook_selected := notebook_selected self |}
    else self in
  _setup_hotkeys self'.

End WithCase.

End Gui.

(* ===================================================================== *)
(** * Measures on the click loop and on traces                            *)
(* ===================================================================== *)

Module Loop.
Import Py Engine.

(** The steps a loop still takes, at most, once the stop signal is set
    and stays set. *)
Definition remaining (p : pc) : nat :=
  match p with
  | AtClick => 6
  | AtEntry | AtDelaySleep | AtCount => 5
  | AtDelayTest | AtCallback => 4
  | AtInterval | AtSleep => 3
  | AtLoopTest => 2
  | AtExit => 1
  | Finished | Died => 0
  end.

(** The clicks it still sends then: the one it has already decided on. *)
Definition may_click (p : pc) : nat :=
  match p with AtClick => 1 | _ => 0 end.

Section WithCallable.
Context {Callable : Type}.

Definition is_click (l : label Callable) : bool :=
  match l with LClick => true | _ => false end.

Definition is_count (l : label Callable) : bool :=
  match l with LCount _ => true | _ => false end.

Definition is_delay_sleep (l : label Callable) : bool :=
  match l with LSleep Delay _ => true | _ => false end.

Definition nclicks (ls : list (label Callable)) : nat :=
  length (List.filter is_click ls).

(** The sleeps of the delay phase among [ls]. *)
Definition nsleeps (ls : list (label Callable)) : nat :=
  length (List.filter is_delay_sleep ls).

(** Clicks sent and clicks counted in a trace, by all threads. *)
Definition step_label (ev : event Callable) : option (label Callable) :=
  match ev with EvStep _ l => Some l | _ => None end.

Definition clicks_sent (tr : list (event Callable)) : nat :=
  nclicks (omap step_label tr).

Definition clicks_counted (tr : list (event Callable)) : nat :=
  length (List.filter is_count (omap step_label tr)).

(** Threads that have sent a click and not counted it yet. *)
Definition at_count (w : worker) : bool :=
  match at_pc w with AtCount => true | _ => false end.

Definition uncounted (ws : list worker) : nat :=
  length (List.filter at_count ws).

(** Threads that have not ended. *)
Definition live (w : worker) : bool :=
  match at_pc w with Finished | Died => false | _ => true end.

Definition nlive (ws : list worker) : nat :=
  length (List.filter live ws).

(** Never more than one loop alive: in [s] and after each of [acts]. *)
Fixpoint one_at_a_time (acts : list (action Callable))
    (s : system Callable) : bool :=
  (nlive (threads s) <=? 1)%nat &&
  match acts with
  | [] => true
  | a :: acts' => one_at_a_time acts' (fst (sys_step a s))
  end.

End WithCallable.


(** Program points behind the delay phase. *)
Definition past_delay (p : pc) : bool :=
  match p with
  | AtEntry | AtDelayTest | AtDelaySleep => false
  | _ => true
  end.

(** [elapsed] after [k] rounds of [elapsed += 0.05], from 0. *)
Fixpoint ticks (k : nat) : float :=
  match k with
  | O => zero
  | S k' => add (ticks k') f_0_05
  end.

(** What the delay loop keeps true of a worker with delay [d] that has
    slept [n] times in the delay phase. *)
Definition delay_inv (d : float) (n : nat) (w : worker) : Prop :=
  delay w = d /\
  match at_pc w with
  | AtEntry => n = O
  | AtDelayTest =>
      gt d zero = true /\ elapsed w = ticks n /\
      forall j, (j < n)%nat -> lt (ticks j) d = true
  | AtDelaySleep =>
      gt d zero = true /\ elapsed w = ticks n /\
      forall j, (j <= n)%nat -> lt (ticks j) d = true
  | _ => True
  end.

End Loop.

(* ===================================================================== *)
(** * AutoClickerGUI: toggles, hotkey handlers and input delivery         *)
(* ===================================================================== *)

Module Window.
Import Py Gui.

(** The text variables of the entry fields. *)
Record Fields : Type := {
  autoclick_delay_var : string;
  autoclick_cps_var : string;
  keybind_cps_var : string;
  normal_cps_var : string;
  normal_delay_var : string
}.

(** What [root.after(0, ...)] queues for the main loop. *)
Inductive task : Type :=
| run_toggle_autoclick
| set_click_counter (count : N).

(** What a method does besides changing the window's state: the worker
    thread it starts, the tasks it queues, whether it opens the error
    box. *)
Record effects : Type := {
  started : option Engine.worker;
  scheduled : list task;
  error_shown : bool
}.

Definition nothing : effects :=
  {| started := None; scheduled := []; error_shown := false |}.

Definition ClickMode_eqb (a b : ClickMode) : bool :=
  match a, b with
  | AUTOCLICK, AUTOCLICK | KEYBIND, KEYBIND | NORMAL, NORMAL => true
  | _, _ => false
  end.

Definition with_engine (e : Engine.ClickerEngine click_callback)
    (self : AutoClickerGUI) : AutoClickerGUI :=
  {| autoclick_settings := autoclick_settings self;
     keybind_settings := keybind_settings self;
     normal_settings := normal_settings self;
     engine := e; hotkey_manager := hotkey_manager self;
     current_mode := current_mode self; is_active := is_active self;
     autoclick_hotkey_var := autoclick_hotkey_var self;
     keybind_hotkey_var := keybind_hotkey_var self;
     autoclick_start_btn := autoclick_start_btn self;
     keybind_enable_btn := keybind_enable_btn self;
     normal_enable_btn := normal_enable_btn self;
     status_label := status_label self;
     notebook_selected := notebook_selected self |}.

Definition with_start_btn (b : start_button) (self : AutoClickerGUI)
  : AutoClickerGUI :=
  {| autoclick_settings := autoclick_settings self;
     keybind_settings := keybind_settings self;
     normal_settings := normal_settings self;
     engine := engine self; hotkey_manager := hotkey_manager self;
     current_mode := current_mode self; is_active := is_active self;
     autoclick_hotkey_var := autoclick_hotkey_var self;
     keybind_hotkey_var := keybind_hotkey_var self;
     autoclick_start_btn := b;
     keybind_enable_btn := keybind_enable_btn self;
     normal_enable_btn := normal_enable_btn self;
     status_label := status_label self;
     notebook_selected := notebook_selected self |}.

Definition with_keybind_btn (b : enable_button) (self : AutoClickerGUI)
  : AutoClickerGUI :=
  {| autoclick_settings := autoclick_settings self;
     keybind_settings := keybind_settings self;
     normal_settings := normal_settings self;
     engine := engine self; hotkey_manager := hotkey_manager self;
     current_mode := current_mode self; is_active := is_active self;
     autoclick_hotkey_var := autoclick_hotkey_var self;
     keybind_hotkey_var := keybind_hotkey_var self;
     autoclick_start_btn := autoclick_start_btn self;
     keybind_enable_btn := b;
     normal_enable_btn := normal_enable_btn self;
     status_label := status_label self;
     notebook_selected := notebook_selected self |}.

Definition with_normal_btn (b : enable_button) (self : AutoClickerGUI)
  : AutoClickerGUI :=
  {| autoclick_settings := autoclick_settings self;
     keybind_settings := keybind_settings self;
     normal_settings := normal_settings self;
     engine := engine self; hotkey_manager := hotkey_manager self;
     current_mode := current_mode self; is_active := is_active self;
     autoclick_hotkey_var := autoclick_hotkey_var self;
     keybind_hotkey_var := keybind_hotkey_var self;
     autoclick_start_btn := autoclick_start_btn self;
     keybind_enable_btn := keybind_enable_btn self;
     normal_enable_btn := b;
     status_label := status_label self;
     notebook_selected := notebook_selected self |}.

(** [self.is_active = ...; self.current_mode = ...] *)
Definition with_mode (active : bool) (mode : ClickMode)
    (self : AutoClickerGUI) : AutoClickerGUI :=
  {| autoclick_settings := autoclick_settings self;
     keybind_settings := keybind_settings self;
     normal_settings := normal_settings self;
     engine := engine self; hotkey_manager := hotkey_manager self;
     current_mode := mode; is_active := active;
     autoclick_hotkey_var := autoclick_hotkey_var self;
     keybind_hotkey_var := keybind_hotkey_var self;
     autoclick_start_btn := autoclick_start_btn self;
     keybind_enable_btn := keybind_enable_btn self;
     normal_enable_btn := normal_enable_btn self;
     status_label := status_label self;
     notebook_selected := notebook_selected self |}.

Definition with_hotkey_vars (a k : string) (self : AutoClickerGUI)
  : AutoClickerGUI :=
  {| autoclick_settings := autoclick_settings self;
     keybind_settings := keybind_settings self;
     normal_settings := normal_settings self;
     engine := engine self; hotkey_manager := hotkey_manager self;
     current_mode := current_mode self; is_active := is_active self;
     autoclick_hotkey_var := a;
     keybind_hotkey_var := k;
     autoclick_start_btn := autoclick_start_btn self;
     keybind_enable_btn := keybind_enable_btn self;
     normal_enable_btn := normal_enable_btn self;
     status_label := status_label self;
     notebook_selected := notebook_selected self |}.

(** ** [_update_click_counter] and [_reset_click_counter] *)

Definition call_update_click_counter (count : N) : task :=
  set_click_counter count.

Definition _reset_click_counter (self : AutoClickerGUI)
  : AutoClickerGUI * effects :=
  let (e, note) := Engine.reset_click_count (engine self) in
  (with_engine e self,
   {| started := None;
      scheduled :=
        match note with
        | Some (_update_click_counter, count) =>
            [call_update_click_counter count]
        | None => []
        end;
      error_shown := false |}).

(** ** [_toggle_autoclick], [_toggle_keybind], [_toggle_normal]

    [tid] names the thread a call of [start_clicking] would create. *)

Definition _toggle_autoclick (fields : Fields) (tid : nat)
    (self : AutoClickerGUI) : result (AutoClickerGUI * effects) :=
  if Engine.is_clicking (engine self) then
    Returns
      (_update_status false None
         (with_start_btn ShowsStart
            (with_engine (Engine.stop_clicking (engine self)) self)),
       nothing)
  else
    let body :=
      match _get_float_value (autoclick_cps_var fields) f_10_0 with
      | Raises x => Raises x
      | Returns cps =>
          match _get_float_value (autoclick_delay_var fields) f_1_0 with
          | Raises x => Raises x
          | Returns delay =>
              let (e, w) :=
                Engine.start_clicking cps delay tid (engine self) in
              Returns
                (_update_status true None
                   (with_start_btn ShowsStop (with_engine e self)),
                 {| started := w; scheduled := []; error_shown := false |})
          end
      end in
    match body with
    | Raises ValueError =>
        Returns (self, {| started := None; scheduled := [];
                          error_shown := true |})
    | other => other
    end.

Definition _toggle_keybind (self : AutoClickerGUI) : AutoClickerGUI :=
  let self1 := with_mode (negb (is_active self)) KEYBIND self in
  if is_active self1 then
    _update_status false
      (Some ("Keybind Mode Active - Hold "
             +:+ autoclick_hotkey (keybind_settings self1)))
      (with_keybind_btn ShowsDisable self1)
  else
    _update_status false None
      (with_keybind_btn ShowsEnable
         (with_engine (Engine.stop_clicking (engine self1)) self1)).

Definition _toggle_normal (self : AutoClickerGUI) : AutoClickerGUI :=
  let self1 := with_mode (negb (is_active self)) NORMAL self in
  if is_active self1 then
    _update_status false (Some "Normal Mode Active - Hold M1 to Click")
      (with_normal_btn ShowsDisable self1)
  else
    _update_status false None
      (with_normal_btn ShowsEnable
         (with_engine (Engine.stop_clicking (engine self1)) self1)).

(** ** [_on_close] (the listeners and the window are torn down outside) *)

Definition _on_close (self : AutoClickerGUI) : AutoClickerGUI :=
  with_engine (Engine.stop_clicking (engine self)) self.

(** ** The three handlers of [_setup_hotkeys] *)

Definition call_autoclick_hotkey_handler (event_type : string)
    (self : AutoClickerGUI) : AutoClickerGUI * effects :=
  if String.eqb event_type "press"
     && ClickMode_eqb (current_mode self) AUTOCLICK
  then (self, {| started := None; scheduled := [run_toggle_autoclick];
                 error_shown := false |})
  else (self, nothing).

(** The body shared by the keybind and the normal handler once its mode
    is on: [delay] is the delay to start with. *)
Definition hold_to_click (event_type : string) (cps : result float)
    (delay : result float) (tid : nat) (self : AutoClickerGUI)
  : result (AutoClickerGUI * effects) :=
  if String.eqb event_type "press" then
    if negb (Engine.is_clicking (engine self)) then
      match cps with
      | Raises x => Raises x
      | Returns c =>
          match delay with
          | Raises x => Raises x
          | Returns d =>
              let (e, w) := Engine.start_clicking c d tid (engine self) in
              Returns (_update_status true None (with_engine e self),
                       {| started := w; scheduled := [];
                          error_shown := false |})
          end
      end
    else Returns (self, nothing)
  else if String.eqb event_type "release" then
    Returns (_update_status false None
               (with_engine (Engine.stop_clicking (engine self)) self),
             nothing)
  else Returns (self, nothing).

Definition call_keybind_hotkey_handler (fields : Fields) (tid : nat)
    (event_type : string) (self : AutoClickerGUI)
  : result (AutoClickerGUI * effects) :=
  if negb (is_active self)
     || negb (ClickMode_eqb (current_mode self) KEYBIND)
  then Returns (self, nothing)
  else hold_to_click event_type
         (_get_float_value (keybind_cps_var fields) f_10_0)
         (Returns zero) tid self.

Definition call_normal_mode_handler (fields : Fields) (tid : nat)
    (event_type : string) (self : AutoClickerGUI)
  : result (AutoClickerGUI * effects) :=
  if negb (is_active self)
     || negb (ClickMode_eqb (current_mode self) NORMAL)
  then Returns (self, nothing)
  else hold_to_click event_type
         (_get_float_value (normal_cps_var fields) f_10_0)
         (_get_float_value (normal_delay_var fields) f_0_5) tid self.

Definition call_handler (fields : Fields) (tid : nat) (h : hotkey_handler)
    (event_type : string) (self : AutoClickerGUI)
  : result (AutoClickerGUI * effects) :=
  match h with
  | autoclick_hotkey_handler =>
      Returns (call_autoclick_hotkey_handler event_type self)
  | keybind_hotkey_handler =>
      call_keybind_hotkey_handler fields tid event_type self
  | normal_mode_handler =>
      call_normal_mode_handler fields tid event_type self
  end.

Section WithCase.
Context `{StrCase}.

(** ** [_record_hotkey] *)

Definition _record_hotkey (mode : string) (self : AutoClickerGUI)
  : AutoClickerGUI :=
  if String.eqb mode "autoclick" then
    set_hotkey_manager
      (Hotkeys.start_recording (set_hotkey_for mode) (hotkey_manager self))
      (with_hotkey_vars "Press key..." (keybind_hotkey_var self) self)
  else if String.eqb mode "keybind" then
    set_hotkey_manager
      (Hotkeys.start_recording (set_hotkey_for mode) (hotkey_manager self))
      (with_hotkey_vars (autoclick_hotkey_var self) "Press key..." self)
  else self.

(** ** Input events, as the listeners hand them to the manager and the
    manager to the window's callables *)

Inductive input : Type :=
| KeyPress (k : Hotkeys.key)
| KeyRelease (k : Hotkeys.key)
| MouseClick (x y : Z) (button : Hotkeys.Button) (pressed : bool).

Definition call (fields : Fields) (tid : nat)
    (inv : Hotkeys.invocation hotkey_handler recorder)
    (self : AutoClickerGUI) : result (AutoClickerGUI * effects) :=
  match inv with
  | Hotkeys.Handled h event_type => call_handler fields tid h event_type self
  | Hotkeys.Recorded (set_hotkey_for mode) key_name =>
      Returns (_set_hotkey mode key_name self, nothing)
  end.

(** Press, release and click each make at most one call. *)
Definition call_all (fields : Fields) (tid : nat)
    (invs : list (Hotkeys.invocation hotkey_handler recorder))
    (self : AutoClickerGUI) : result (AutoClickerGUI * effects) :=
  match invs with
  | [] => Returns (self, nothing)
  | inv :: _ => call fields tid inv self
  end.

Definition deliver (fields : Fields) (tid : nat) (i : input)
    (self : AutoClickerGUI) : result (AutoClickerGUI * effects) :=
  match i with
  | KeyPress k =>
      let (m, invs) := Hotkeys._on_key_press k (hotkey_manager self) in
      call_all fields tid invs (set_hotkey_manager m self)
  | KeyRelease k =>
      let (m, invs) := Hotkeys._on_key_release k (hotkey_manager self) in
      call_all fields tid invs (set_hotkey_manager m self)
  | MouseClick x y button pressed =>
      call_all fields tid
        (snd (Hotkeys._on_mouse_click x y button pressed
                (hotkey_manager self)))
        self
  end.

(** The calls the manager makes for a key press that reaches the window
    in the state [self]. *)
Definition calls_on_press (k : Hotkeys.key) (self : AutoClickerGUI)
  : list (Hotkeys.invocation hotkey_handler recorder) :=
  snd (Hotkeys._on_key_press k (hotkey_manager self)).

(** Key presses delivered one after the other by the keyboard listener.
    Each call runs inside its press, so the next press finds the window
    as that call left it: after a recorder has run, the table is the one
    [_setup_hotkeys] rebuilt.  The result lists the calls made for each
    press; [tid] moves on with every worker started, and a call that
    raises ends the listener. *)
Fixpoint press_all (fields : Fields) (tid : nat) (ks : list Hotkeys.key)
    (self : AutoClickerGUI)
  : list (list (Hotkeys.invocation hotkey_handler recorder)) :=
  match ks with
  | [] => []
  | k :: ks' =>
      calls_on_press k self ::
      match deliver fields tid (KeyPress k) self with
      | Returns (self', eff) =>
          press_all fields
            (match started eff with Some _ => S tid | None => tid end)
            ks' self'
      | Raises _ => []
      end
  end.

(** An outcome that neither starts nor stops anything: the result of a
    delivery that returns, leaves the engine, the mode and the (cleared)
    enable flag alone and at most queues an autoclick toggle. *)
Definition inert_result (self : AutoClickerGUI)
    (r : result (AutoClickerGUI * effects)) : Prop :=
  exists self' eff,
    r = Returns (self', eff) /\
    engine self' = engine self /\
    started eff = None /\ error_shown eff = false /\
    is_active self' = false /\
    current_mode self' = current_mode self /\
    (scheduled eff = [] \/
     scheduled eff = [run_toggle_autoclick] /\ current_mode self = AUTOCLICK).

(** ** The window as [__init__] leaves it *)

Definition fields_init : Fields :=
  {| autoclick_delay_var := "1.0"; autoclick_cps_var := "10.0";
     keybind_cps_var := "10.0"; normal_cps_var := "10.0";
     normal_delay_var := "0.5" |}.

Definition __init__ : AutoClickerGUI :=
  let built :=
    {| autoclick_settings := AutoClickSettings_default;
       keybind_settings := KeybindSettings_default;
       normal_settings := NormalSettings_default;
       engine := Engine.__init__; hotkey_manager := Hotkeys.__init__;
       current_mode := AUTOCLICK; is_active := false;
       autoclick_hotkey_var := kill_hotkey AutoClickSettings_default;
       keybind_hotkey_var := autoclick_hotkey KeybindSettings_default;
       autoclick_start_btn := ShowsStart;
       keybind_enable_btn := ShowsEnable;
       normal_enable_btn := ShowsEnable;
       status_label := StatusInactive;
       notebook_selected := 0 |} in
  let hooked := _setup_hotkeys built in
  with_engine
    (Engine.set_click_callback _update_click_counter (engine hooked)) hooked.

End WithCase.

End Window.

(* ===================================================================== *)
(** * Properties of the engine's methods                                  *)
(* ===================================================================== *)

Section EngineMethods.
Import Engine.
Context {Callable : Type}.
Implicit Types (self : ClickerEngine Callable) (s : system Callable).
Implicit Types (a : action Callable).

(** C10. On an engine that is clicking, [start_clicking] returns at once:
    the engine is unchanged in every field (the stop signal is not
    cleared) and no worker is started; in a run, the call leaves the whole
    system as it was. *)
Theorem start_clicking_while_clicking self cps d tid :
  is_clicking self = true ->
  start_clicking cps d tid self = (self, None) /\
  forall s, shared s = self ->
    sys_step (CallStart cps d) s = (s, Some (EvStart cps d None)).
Proof.
  intros Hc. split.
  - unfold start_clicking. now rewrite Hc.
  - intros s <-. unfold sys_step, start_clicking. rewrite Hc.
    now destruct s.
Qed.

(** C8. The click count survives [start_clicking] and [stop_clicking],
    [reset_click_count] makes it 0, and in a run every action leaves it
    alone except a reset (to 0) and a worker's counting step (one more). *)
Theorem click_count_persists :
  (forall self cps d tid,
      click_count (fst (start_clicking cps d tid self)) = click_count self) /\
  (forall self, click_count (stop_clicking self) = click_count self) /\
  (forall self, click_count (fst (reset_click_count self)) = 0%N) /\
  (forall a s,
      let n := click_count (shared s) in
      let n' := click_count (shared (fst (sys_step a s))) in
      match a with
      | CallReset => n' = 0%N
      | Step _ => n' = n \/ n' = (n + 1)%N
      | _ => n' = n
      end).
Proof.
  repeat split.
  - intros self cps d tid. unfold start_clicking.
    now destruct (is_clicking self).
  - intros a s. destruct a as [cb| |cps d| |tid]; cbn; try reflexivity.
    + unfold start_clicking. now destruct (is_clicking (shared s)).
    + destruct (threads s !! tid) as [w|]; [|now left].
      unfold worker_step, time_sleep.
      destruct (at_pc w); cbn;
        repeat match goal with
               | |- context [if ?b then _ else _] => destruct b; cbn
               end; auto.
Qed.

End EngineMethods.

(* ===================================================================== *)
(** * Properties of the numeric fields and of the tab change              *)
(* ===================================================================== *)

Section NumericFields.
Import Py Gui.

Lemma float_from_string_inner_raises s x :
  float_from_string_inner s = Raises x -> x = ValueError.
Proof.
  unfold float_from_string_inner.
  destruct (lstrip s); [congruence|].
  destruct (PyOS_string_to_double _) as [[v [|c r]]|]; congruence.
Qed.

Lemma float_of_str_raises s x :
  float_of_str s = Raises x -> x = ValueError.
Proof.
  unfold float_of_str.
  destruct (without_underscores _); [|congruence].
  apply float_from_string_inner_raises.
Qed.

(** What [_get_float_value] returns, in one equation: it never raises,
    the default stands in for text that is no number and for a number
    [r] with [r <= 0], and any other number is returned as parsed. *)
Lemma get_float_value_returns value default :
  _get_float_value value default =
  Returns match float_of_str value with
          | Returns r => if le r zero then default else r
          | Raises _ => default
          end.
Proof.
  unfold _get_float_value.
  destruct (float_of_str value) as [r|x] eqn:E.
  - now destruct (le r zero).
  - now rewrite (float_of_str_raises _ _ E).
Qed.

Example float_of_str_accepts :
  map float_of_str [" 10 "; "1_000.5e-1"; "+.5E+1"; "-Infinity"; "1e999"]
  = map Returns [f_10_0; decimal false 10005 (-2); decimal false 5 0;
                 inf true; inf false].
Proof. reflexivity. Qed.

Example float_of_str_rejects :
  map float_of_str [""; "abc"; "1e"; "."; "infinit"; "1__0"; "_1"; "- 1"]
  = repeat (Raises ValueError) 8.
Proof. reflexivity. Qed.

Example get_float_value_falls_back :
  map (fun v => _get_float_value v f_10_0) ["abc"; "0"; "-3"; "-0.0"; "2.5"]
  = map Returns [f_10_0; f_10_0; f_10_0; f_10_0; decimal false 25 (-1)].
Proof. reflexivity. Qed.

(** C5. The text "nan" parses, to a NaN; a NaN is not positive, yet
    [_get_float_value] returns it and not the default. *)
Theorem get_float_value_nan :
  float_of_str "nan" = Returns nan /\
  gt nan zero = false /\
  forall default, _get_float_value "nan" default = Returns nan.
Proof. repeat split. Qed.

(** C4. After a tab change the stop signal is set, the engine is not
    clicking and the mode-enable flag is off, whatever the state before. *)
Theorem tab_change_stops_clicking (self : AutoClickerGUI) :
  let self' := _on_tab_change self in
  Engine._stop_event (engine self') = true /\
  Engine.is_clicking (engine self') = false /\
  is_active self' = false.
Proof. repeat split. Qed.

End NumericFields.

(* ===================================================================== *)
(** * Properties of the hotkey table                                      *)
(* ===================================================================== *)

Section HotkeyTable.
Import Py Hotkeys.
Context `{StrCase} {Handler Recorder : Type}.
Implicit Types (self m : HotkeyManager Handler Recorder).
Implicit Types (k : key) (c : Handler) (cb : Recorder).

Example key_names :
  map (_key_to_name (H:=ascii_case))
      [Key "f6"; KeyCode (Some "q") (Some 81) "'q'"; KeyCode None (Some 65) "<65>";
       KeyCode (Some "") (Some 0) "''"; OtherKey "None"]
  = ["F6"; "Q"; "VK_65"; "''"; "None"]%string.
Proof. reflexivity. Qed.

Lemma callbacks_register key_name c m :
  callbacks (register_hotkey key_name c m)
  = <[lower key_name := c]> (callbacks m).
Proof. reflexivity. Qed.

Lemma dispatch_registered name event_type c m :
  callbacks m !! name = Some c ->
  dispatch name event_type m = [Handled c event_type].
Proof. unfold dispatch. now intros ->. Qed.

Lemma press_not_recording k m :
  is_recording m = false ->
  snd (_on_key_press k m) = dispatch (lower (_key_to_name k)) "press" m.
Proof. unfold _on_key_press. now intros ->. Qed.

Lemma press_keeps_callbacks k m :
  callbacks (fst (_on_key_press k m)) = callbacks m /\
  is_recording (fst (_on_key_press k m)) = false.
Proof.
  unfold _on_key_press. destruct (is_recording m) eqn:E; cbn; auto.
Qed.

(** A press while no recording is pending calls what the table holds for
    the key's lower-cased name, with "press", and nothing else. *)
Lemma press_calls_the_bound_handler k m :
  is_recording m = false ->
  snd (_on_key_press k m)
  = match callbacks m !! lower (_key_to_name k) with
    | Some h => [Handled h "press"]
    | None => []
    end.
Proof. unfold _on_key_press, dispatch. now intros ->. Qed.

Lemma release_dispatches k m :
  snd (_on_key_release k m) = dispatch (lower (_key_to_name k)) "release" m.
Proof. reflexivity. Qed.

Lemma press_while_recording k m :
  is_recording m = true ->
  forall h event_type, Handled h event_type ∉ snd (_on_key_press k m).
Proof.
  unfold _on_key_press. intros -> h event_type. cbn [snd].
  destruct (recording_callback m) as [r|].
  - rewrite list_elem_of_singleton. congruence.
  - apply not_elem_of_nil.
Qed.

(** C3. After [c1] and then [c2] were registered for [k], the table is
    the one a single registration of [c2] gives.  A release of a key
    named [k], and a press of it while no recording is pending, call
    [c2] and nothing else; a press while a recording is pending calls no
    handler at all.  So whatever is called for [k] is [c2].  In the
    window, [_set_hotkey] rebuilds the table from nothing: it holds the
    three fresh registrations whatever it held before. *)
Theorem rebinding_replaces_handler m key_name c1 c2 k :
  lower (_key_to_name k) = lower key_name ->
  let m' := register_hotkey key_name c2 (register_hotkey key_name c1 m) in
  callbacks m' = <[lower key_name := c2]> (callbacks m) /\
  callbacks m' !! lower key_name = Some c2 /\
  snd (_on_key_release k m') = [Handled c2 "release"] /\
  (is_recording m = false ->
   snd (_on_key_press k m') = [Handled c2 "press"]) /\
  (is_recording m = true ->
   forall h event_type, Handled h event_type ∉ snd (_on_key_press k m')) /\
  (forall h event_type,
      Handled h event_type ∈ snd (_on_key_press k m')
                             ++ snd (_on_key_release k m') ->
      h = c2) /\
  (forall g mode key,
      let g' := Gui._set_hotkey mode key g in
      callbacks (Gui.hotkey_manager g')
      = <[lower "m1" := Gui.normal_mode_handler]>
          (<[lower (Gui.autoclick_hotkey (Gui.keybind_settings g'))
             := Gui.keybind_hotkey_handler]>
             (<[lower (Gui.kill_hotkey (Gui.autoclick_settings g'))
                := Gui.autoclick_hotkey_handler]> ∅))).
Proof.
  intros Hk m'.
  assert (Ht : callbacks m' = <[lower key_name := c2]> (callbacks m)).
  { subst m'. rewrite !callbacks_register. apply insert_insert_eq. }
  assert (Hl : callbacks m' !! lower key_name = Some c2).
  { rewrite Ht. apply lookup_insert_eq. }
  assert (Hrel : snd (_on_key_release k m') = [Handled c2 "release"]).
  { rewrite release_dispatches, Hk. now apply dispatch_registered. }
  assert (Hpr : is_recording m = false ->
                snd (_on_key_press k m') = [Handled c2 "press"]).
  { intros Hr. rewrite press_not_recording by exact Hr.
    rewrite Hk. now apply dispatch_registered. }
  repeat split; try assumption.
  - intros Hr. now apply press_while_recording.
  - intros h event_type Hin. apply elem_of_app in Hin as [Hin|Hin].
    + destruct (is_recording m) eqn:Hr.
      * now apply (press_while_recording k m') in Hin.
      * rewrite (Hpr eq_refl) in Hin.
        apply list_elem_of_singleton in Hin. congruence.
    + rewrite Hrel in Hin. apply list_elem_of_singleton in Hin. congruence.
Qed.

(** C9. A registration stores the handler under the lower-cased name,
    and both press and release look the observed key's lower-cased name
    up.  So a handler registered under [key_name'], any capitalization of
    [key_name], is called on the release of every key whose name equals
    [key_name] ignoring case, and on its press while no recording is
    pending. *)
Theorem lookup_is_case_normalized m key_name key_name' c k :
  lower key_name' = lower key_name ->
  lower (_key_to_name k) = lower key_name ->
  let m' := register_hotkey key_name' c m in
  callbacks m' = <[lower key_name := c]> (callbacks m) /\
  snd (_on_key_release k m') = dispatch (lower (_key_to_name k)) "release" m' /\
  snd (_on_key_release k m') = [Handled c "release"] /\
  (is_recording m = false ->
   snd (_on_key_press k m') = dispatch (lower (_key_to_name k)) "press" m' /\
   snd (_on_key_press k m') = [Handled c "press"]).
Proof.
  intros Hn Hk m'.
  assert (Hl : callbacks m' !! lower key_name = Some c).
  { subst m'. rewrite callbacks_register, Hn. apply lookup_insert_eq. }
  repeat split.
  - subst m'. now rewrite callbacks_register, Hn.
  - rewrite release_dispatches, Hk. now apply dispatch_registered.
  - now apply press_not_recording.
  - rewrite press_not_recording by assumption.
    rewrite Hk. now apply dispatch_registered.
Qed.

End HotkeyTable.

(** ** The hotkey table on concrete inputs

    Handlers and recorders are named by numbers, the case mapping is the
    ASCII one. *)

(** C3, as first stated, fails while a recording is pending: with
    handler 1 and then handler 2 registered for F6, a press of F6 goes
    to the recorder 7 and handler 2 is not called. *)
Lemma rebinding_press_goes_to_recorder :
  Hotkeys._key_to_name (H:=Py.ascii_case) (Hotkeys.Key "f6") = "F6"%string /\
  snd (Hotkeys._on_key_press (H:=Py.ascii_case) (Hotkeys.Key "f6")
         (Hotkeys.register_hotkey (H:=Py.ascii_case) "F6" 2%nat
            (Hotkeys.register_hotkey (H:=Py.ascii_case) "F6" 1%nat
               (Hotkeys.start_recording 7%nat Hotkeys.__init__))))
  = [Hotkeys.Recorded 7%nat "F6"].
Proof. split; reflexivity. Qed.

Lemma rebinding_replaces_handler_witness :
  snd (Hotkeys._on_key_press (H:=Py.ascii_case) (Recorder:=nat)
         (Hotkeys.Key "f6")
         (Hotkeys.register_hotkey (H:=Py.ascii_case) "F6" 2%nat
            (Hotkeys.register_hotkey (H:=Py.ascii_case) "F6" 1%nat
               Hotkeys.__init__)))
  = [Hotkeys.Handled 2%nat "press"].
Proof.
  apply (rebinding_replaces_handler (H:=Py.ascii_case)
           Hotkeys.__init__ "F6" 1%nat 2%nat (Hotkeys.Key "f6") eq_refl).
  reflexivity.
Defined.

(** C9, as first stated, fails while a recording is pending: handler 3
    is registered under [f6], yet the press of F6 is not dispatched. *)
Lemma normalized_press_goes_to_recorder :
  @Py.lower Py.ascii_case
    (Hotkeys._key_to_name (H:=Py.ascii_case) (Hotkeys.Key "f6"))
  = @Py.lower Py.ascii_case "F6" /\
  snd (Hotkeys._on_key_press (H:=Py.ascii_case) (Hotkeys.Key "f6")
         (Hotkeys.register_hotkey (H:=Py.ascii_case) "f6" 3%nat
            (Hotkeys.start_recording 9%nat Hotkeys.__init__)))
  = [Hotkeys.Recorded 9%nat "F6"].
Proof. split; reflexivity. Qed.

Lemma lookup_is_case_normalized_witness :
  snd (Hotkeys._on_key_press (H:=Py.ascii_case) (Recorder:=nat)
         (Hotkeys.KeyCode (Some "q"%string) None "'q'")
         (Hotkeys.register_hotkey (H:=Py.ascii_case) "q" 4%nat
            Hotkeys.__init__))
  = [Hotkeys.Handled 4%nat "press"].
Proof.
  apply (lookup_is_case_normalized (H:=Py.ascii_case)
           Hotkeys.__init__ "Q" "q" 4%nat
           (Hotkeys.KeyCode (Some "q"%string) None "'q'") eq_refl eq_refl).
  reflexivity.
Defined.

(* ===================================================================== *)
(** * Runs of the click loop                                              *)
(* ===================================================================== *)

Section WorkerRuns.
Import Py Engine.
Context {Callable : Type}.
Implicit Types (self : ClickerEngine Callable) (w : worker).
Implicit Types (l : label Callable) (ls : list (label Callable)).
Implicit Types (s : system Callable) (a : action Callable).
Implicit Types (tr : list (event Callable)) (acts : list (action Callable)).

Lemma sleep_raises_0_05 : sleep_raises f_0_05 = false.
Proof. reflexivity. Qed.

(** Case analysis of one step: the label fixes where the step was taken,
    where it leads and what it did to the engine and to the locals. *)
Lemma worker_step_inv self w self' w' l :
  worker_step self w = Some (self', w', l) ->
  at_pc w = src l /\ at_pc w' = tgt l /\
  clicks_per_sec w' = clicks_per_sec w /\
  _stop_event self' = _stop_event self /\
  match l with
  | LInterval d =>
      d = compute_interval (clicks_per_sec w) /\ interval w' = d
  | LSleep Repeat d | LSleepRaised Repeat d =>
      d = interval w /\ interval w' = interval w
  | LSleep Delay d | LSleepRaised Delay d =>
      d = f_0_05 /\ interval w' = interval w
  | _ => interval w' = interval w
  end /\
  match l with
  | LPoll _ set => set = _stop_event self /\ self' = self
  | LCount n =>
      n = (click_count self + 1)%N /\ click_count self' = n /\
      is_clicking self' = is_clicking self
  | LExit => is_clicking self' = false /\ click_count self' = click_count self
  | _ => self' = self
  end.
Proof.
  unfold worker_step, time_sleep. intros Hs.
  destruct (at_pc w) eqn:Hpc;
    repeat match type of Hs with
           | context [if ?b then _ else _] => destruct b eqn:?
           end;
    inversion Hs; subst; clear Hs; cbn; rewrite ?Hpc; auto 10.
Qed.

Lemma path_nil_inv w w' : path (Callable:=Callable) w [] w' -> w' = w.
Proof. now inversion 1. Qed.

Lemma path_cons_inv w l ls w'' :
  path w (l :: ls) w'' ->
  exists self self' w',
    worker_step self w = Some (self', w', l) /\ path w' ls w''.
Proof. inversion 1; subst; eauto. Qed.

Lemma path_app_inv ls1 : forall w ls2 w'',
  path w (ls1 ++ ls2) w'' ->
  exists w', path w ls1 w' /\ path w' ls2 w''.
Proof.
  induction ls1 as [|l ls1 IH]; intros w ls2 w'' Hp; cbn in Hp.
  - exists w. split; [constructor|assumption].
  - apply path_cons_inv in Hp as (self & self' & w1 & Hs & Hp).
    apply IH in Hp as (w' & Hp1 & Hp2).
    exists w'. split; [econstructor; eassumption|assumption].
Qed.

Lemma path_src w l ls w' : path w (l :: ls) w' -> at_pc w = src l.
Proof.
  intros Hp. apply path_cons_inv in Hp as (self & self' & w1 & Hs & _).
  now apply worker_step_inv in Hs.
Qed.

Lemma path_tgt ls : forall w l w',
  path w (ls ++ [l]) w' -> at_pc w' = tgt l.
Proof.
  induction ls as [|l0 ls IH]; intros w l w' Hp; cbn in Hp;
    apply path_cons_inv in Hp as (self & self' & w1 & Hs & Hp).
  - apply path_nil_inv in Hp. subst. now apply worker_step_inv in Hs.
  - now apply IH in Hp.
Qed.

(** Nothing follows the end of the thread. *)
Lemma path_ended w ls w' :
  path w ls w' -> at_pc w = Finished \/ at_pc w = Died -> ls = [].
Proof.
  intros Hp Hpc. destruct ls as [|l ls]; [reflexivity|].
  apply path_src in Hp. destruct Hpc as [E|E]; rewrite E in Hp;
    destruct l as [[]| |[] []|[] ?|[] ?| | | | |]; discriminate.
Qed.

(** After the final statement has been reached, at most [LExit] follows. *)
Lemma path_from_exit w ls w' :
  path w ls w' -> at_pc w = AtExit -> ls = [] \/ ls = [LExit].
Proof.
  intros Hp Hpc. destruct ls as [|l ls]; [now left|right].
  pose proof (path_src _ _ _ _ Hp) as Hsrc. rewrite Hpc in Hsrc.
  destruct l as [[]| |[] []|[] ?|[] ?| | | | |]; try discriminate.
  apply path_cons_inv in Hp as (self & self' & w1 & Hs & Hp).
  apply worker_step_inv in Hs as (_ & Ht & _).
  apply path_ended in Hp; [now subst|now left].
Qed.

(** The label before a click: the loop test that found the signal unset. *)
Lemma tgt_AtClick l : tgt l = AtClick -> l = LPoll Repeat false.
Proof.
  destruct l as [[]| |[] []|[] ?|[] ?| | | | |]; cbn; congruence.
Qed.

Lemma tgt_AtExit l : tgt l = AtExit -> l = LPoll Repeat true.
Proof.
  destruct l as [[]| |[] []|[] ?|[] ?| | | | |]; cbn; congruence.
Qed.

Lemma path_before w0 ls1 l ls2 w' :
  path w0 (ls1 ++ l :: ls2) w' ->
  (ls1 = [] /\ at_pc w0 = src l) \/
  exists ls0 l0, ls1 = ls0 ++ [l0] /\ tgt l0 = src l.
Proof.
  intros Hp. apply path_app_inv in Hp as (w1 & Hp1 & Hp2).
  apply path_src in Hp2.
  destruct ls1 as [|x ls1 _] using rev_ind.
  - left. apply path_nil_inv in Hp1. now subst.
  - right. exists ls1, x. split; [reflexivity|].
    apply path_tgt in Hp1. congruence.
Qed.

Lemma path_app ls1 : forall w w' ls2 w'',
  path w ls1 w' -> path w' ls2 w'' -> path w (ls1 ++ ls2) w''.
Proof.
  induction ls1 as [|l ls1 IH]; intros w w' ls2 w'' Hp1 Hp2.
  - apply path_nil_inv in Hp1. now subst.
  - apply path_cons_inv in Hp1 as (self & self' & w1 & Hs & Hp1).
    cbn. econstructor; [eassumption|]. eapply IH; eassumption.
Qed.

(** ** From runs of the system to runs of one worker *)

Lemma run_cons a acts s :
  run (a :: acts) s
  = (fst (run acts (fst (sys_step a s))),
     olist (snd (sys_step a s)) ++ snd (run acts (fst (sys_step a s)))).
Proof.
  cbn [run]. destruct (sys_step a s) as [s1 o]. cbn [fst snd].
  destruct (run acts s1) as [s2 tr]. now destruct o.
Qed.

Lemma labels_of_app tid tr1 tr2 :
  labels_of tid (tr1 ++ tr2) = labels_of tid tr1 ++ labels_of tid tr2.
Proof.
  induction tr1 as [|[| | | |t l] tr1 IH]; cbn; auto.
  destruct (Nat.eqb t tid); cbn; congruence.
Qed.

Lemma sys_step_kind a s :
  step_kind s (fst (sys_step a s)) (snd (sys_step a s)).
Proof.
  destruct a as [cb| |cps d| |tid]; cbn.
  - apply kind_call; cbn; congruence.
  - apply kind_call; cbn; congruence.
  - unfold start_clicking. destruct (is_clicking (shared s)) eqn:E; cbn.
    + apply kind_call; cbn; congruence.
    + now apply kind_spawn.
  - apply kind_call; cbn; try congruence. intros _. now right.
  - destruct (threads s !! tid) as [w|] eqn:Hw; [|now constructor].
    destruct (worker_step (shared s) w) as [[[e w'] l]|] eqn:Hs;
      [|now constructor].
    cbn. now apply kind_step with w w'.
Qed.

(** One action moves thread [tid] along its own path. *)
Lemma sys_step_path a s tid w :
  threads s !! tid = Some w ->
  exists w', threads (fst (sys_step a s)) !! tid = Some w' /\
             path w (labels_of tid (olist (snd (sys_step a s)))) w'.
Proof.
  intros Hw. destruct (sys_step_kind a s) as [E|t w0 w1 l Ht Hs Hth|cps d _ _ _ Hth|ev Hth Hns _ _ _].
  - rewrite E. exists w. split; [assumption|constructor].
  - rewrite Hth. cbn. destruct (Nat.eqb_spec t tid) as [->|Hne].
    + exists w1. split.
      * apply list_lookup_insert_eq. now apply lookup_lt_Some in Hw.
      * replace w0 with w in Hs by congruence.
        econstructor; [eassumption|constructor].
    + exists w. split; [|constructor].
      now rewrite list_lookup_insert_ne.
  - rewrite Hth. exists w. split; [|constructor].
    now apply lookup_app_l_Some.
  - rewrite Hth. exists w. split; [assumption|].
    destruct ev; cbn; try constructor. now destruct (Hns tid0 l).
Qed.

Lemma run_path acts : forall s tid w,
  threads s !! tid = Some w ->
  exists w', threads (fst (run acts s)) !! tid = Some w' /\
             path w (labels_of tid (snd (run acts s))) w'.
Proof.
  induction acts as [|a acts IH]; intros s tid w Hw.
  - exists w. split; [assumption|constructor].
  - rewrite run_cons. cbn [fst snd]. rewrite labels_of_app.
    destruct (sys_step_path a s tid w Hw) as (w1 & Hw1 & Hp1).
    destruct (IH _ _ _ Hw1) as (w2 & Hw2 & Hp2).
    exists w2. split; [assumption|]. eapply path_app; eassumption.
Qed.

(** A thread that does not exist yet takes no step, and comes to exist
    only by being spawned at the entry of the loop. *)
Lemma sys_step_unborn a s tid :
  threads s !! tid = None ->
  labels_of tid (olist (snd (sys_step a s))) = [] /\
  (threads (fst (sys_step a s)) !! tid = None \/
   exists cps d,
     snd (sys_step a s) = Some (EvStart cps d (Some tid)) /\
     threads (fst (sys_step a s)) !! tid = Some (spawn cps d)).
Proof.
  intros Hw. destruct (sys_step_kind a s) as [E|t w0 w1 l Ht Hs Hth|cps d _ _ _ Hth|ev Hth Hns _ _ _].
  - rewrite E. auto.
  - cbn. destruct (Nat.eqb_spec t tid) as [->|Hne]; [congruence|].
    split; [reflexivity|left]. rewrite Hth. now rewrite list_lookup_insert_ne.
  - split; [reflexivity|]. rewrite Hth.
    apply lookup_ge_None in Hw.
    destruct (decide (tid = length (threads s))) as [->|Hne].
    + right. exists cps, d. split; [reflexivity|].
      now rewrite list_lookup_middle.
    + left. apply lookup_ge_None. rewrite length_app. cbn. lia.
  - split; [|left; congruence].
    destruct ev; cbn; try reflexivity. now destruct (Hns tid0 l).
Qed.

Lemma sys_step_spawned a s cps d tid :
  snd (sys_step a s) = Some (EvStart cps d (Some tid)) ->
  threads s !! tid = None /\
  threads (fst (sys_step a s)) !! tid = Some (spawn cps d).
Proof.
  intros Hev. destruct (sys_step_kind a s) as [E|t w0 w1 l Ht Hs Hth|cps' d' _ _ _ Hth|ev Hth _ Hns _ _];
    try discriminate.
  - injection Hev as -> -> <-. split.
    + now apply lookup_ge_None.
    + rewrite Hth. now rewrite list_lookup_middle.
  - injection Hev as ->. now destruct (Hns cps d tid).
Qed.

Lemma run_spawned acts : forall s cps d tid,
  EvStart cps d (Some tid) ∈ snd (run acts s) ->
  threads s !! tid = None /\
  exists w', path (spawn cps d) (labels_of tid (snd (run acts s))) w'.
Proof.
  induction acts as [|a acts IH]; intros s cps d tid Hin.
  - cbn in Hin. now apply not_elem_of_nil in Hin.
  - rewrite run_cons in Hin |- *. cbn [fst snd] in *.
    rewrite labels_of_app. apply elem_of_app in Hin as [Hin|Hin].
    + assert (Hev : snd (sys_step a s) = Some (EvStart cps d (Some tid))).
      { destruct (snd (sys_step a s)); cbn in Hin.
        - apply list_elem_of_singleton in Hin. congruence.
        - now apply not_elem_of_nil in Hin. }
      destruct (sys_step_spawned _ _ _ _ _ Hev) as [Hn Hw]. split; [assumption|].
      destruct (sys_step_unborn a s tid Hn) as [-> _].
      destruct (run_path acts _ _ _ Hw) as (w' & _ & Hp). now exists w'.
    + destruct (IH _ _ _ _ Hin) as (Hn1 & w' & Hp).
      assert (Hn : threads s !! tid = None).
      { destruct (threads s !! tid) as [w|] eqn:Hw; [|reflexivity].
        destruct (sys_step_path a s tid w Hw) as (w1 & Hw1 & _). congruence. }
      split; [assumption|].
      destruct (sys_step_unborn a s tid Hn) as [-> _]. now exists w'.
Qed.

Lemma run_unborn acts : forall s tid,
  threads s !! tid = None ->
  exists w0 w', at_pc w0 = AtEntry /\
                path w0 (labels_of tid (snd (run acts s))) w'.
Proof.
  induction acts as [|a acts IH]; intros s tid Hn.
  - exists (spawn zero zero), (spawn zero zero). split; [reflexivity|constructor].
  - rewrite run_cons. cbn [fst snd]. rewrite labels_of_app.
    destruct (sys_step_unborn a s tid Hn) as [-> [Hn1|(cps & d & _ & Hw)]].
    + now apply IH.
    + destruct (run_path acts _ _ _ Hw) as (w' & _ & Hp).
      now exists (spawn cps d), w'.
Qed.

(** Every thread of a run from the fresh engine walks a path of the loop
    that starts at its entry. *)
Lemma trace_path acts tid :
  exists w0 w', at_pc w0 = AtEntry /\ path w0 (labels_of tid (trace acts)) w'.
Proof. now apply run_unborn. Qed.

(** A trace splits where the run does. *)
Lemma run_split acts : forall s u1 ev u2,
  snd (run acts s) = u1 ++ ev :: u2 ->
  exists pre a post,
    acts = pre ++ a :: post /\
    snd (run pre s) = u1 /\
    snd (sys_step a (fst (run pre s))) = Some ev /\
    snd (run post (fst (sys_step a (fst (run pre s))))) = u2.
Proof.
  induction acts as [|a acts IH]; intros s u1 ev u2 Htr.
  - cbn in Htr. now destruct u1.
  - rewrite run_cons in Htr. cbn [snd] in Htr.
    destruct (snd (sys_step a s)) as [x|] eqn:Hx; cbn [olist app] in Htr.
    + destruct u1 as [|y u1]; cbn in Htr; injection Htr as <- Htr.
      * exists [], a, acts. cbn. auto.
      * destruct (IH _ _ _ _ Htr) as (pre & a0 & post & -> & H1 & H2 & H3).
        exists (a :: pre), a0, post. rewrite !run_cons. cbn [fst snd].
        rewrite Hx, H1. cbn [olist app]. auto.
    + destruct (IH _ _ _ _ Htr) as (pre & a0 & post & -> & H1 & H2 & H3).
      exists (a :: pre), a0, post. rewrite !run_cons. cbn [fst snd].
      rewrite Hx, H1. cbn [olist app]. auto.
Qed.

(** Which labels leave a program point. *)
Lemma src_inv l :
  match src l with
  | AtEntry => exists b, l = LDelayTest b
  | AtDelayTest => l = LElapsed \/ exists b, l = LPoll Delay b
  | AtDelaySleep => exists d, l = LSleep Delay d \/ l = LSleepRaised Delay d
  | AtInterval => exists d, l = LInterval d
  | AtLoopTest => exists b, l = LPoll Repeat b
  | AtClick => l = LClick
  | AtCount => exists n, l = LCount n
  | AtCallback => exists cb n, l = LCallback cb n
  | AtSleep => exists d, l = LSleep Repeat d \/ l = LSleepRaised Repeat d
  | AtExit => l = LExit
  | Finished | Died => False
  end.
Proof.
  destruct l as [b| |[] b|[] d|[] d|d| |n|cb n|]; cbn; eauto.
Qed.

(** The head of a path from a known program point. *)
Lemma path_head w l ls w'' p :
  path w (l :: ls) w'' -> at_pc w = p ->
  src l = p /\
  exists self self' w',
    worker_step self w = Some (self', w', l) /\
    at_pc w' = tgt l /\ path w' ls w''.
Proof.
  intros Hp Hpc. apply path_cons_inv in Hp as (self & self' & w1 & Hs & Hp).
  pose proof (worker_step_inv _ _ _ _ _ Hs) as (Hsrc & Htgt & _).
  split; [congruence|]. eauto 10.
Qed.

(** [clicks_per_sec] never changes, and from the head of the repeat
    phase on [interval] holds what line 96 computed from it. *)
Lemma path_tuned R ls : forall w w',
  path w ls w' -> tuned R w -> tuned R w'.
Proof.
  induction ls as [|l ls IH]; intros w w' Hp Hw.
  - apply path_nil_inv in Hp. now subst.
  - apply path_cons_inv in Hp as (self & self' & w1 & Hs & Hp).
    apply (IH _ _ Hp). destruct Hw as [Hc Hi].
    apply worker_step_inv in Hs as (Hsrc & Htgt & Hc1 & _ & Hl & _).
    split; [congruence|]. rewrite Htgt. rewrite Hsrc in Hi.
    destruct l as [[]| |[] []|[] ?|[] ?|d| |n|cb n|]; cbn in *;
      try discriminate; intros _;
      try (rewrite Hl; now apply Hi).
    + destruct Hl as [_ ->]. now apply Hi.
    + destruct Hl as [-> ->]. congruence.
Qed.

Lemma tuned_spawn R d : tuned R (spawn R d).
Proof. split; [reflexivity|discriminate]. Qed.

(** Between two successive clicks of a worker: the count, the callback,
    one sleep of [interval], and the loop test. *)
Lemma between_clicks R w0 (t1 t2 t3 : list (label Callable)) w' :
  tuned R w0 ->
  path w0 (t1 ++ LClick :: t2 ++ LClick :: t3) w' ->
  LClick ∉ t2 ->
  exists n cb m,
    t2 = [LCount n; LCallback cb m; LSleep Repeat (compute_interval R);
          LPoll Repeat false].
Proof.
  intros Hw Hp Hno.
  apply path_app_inv in Hp as (w1 & Hp1 & Hp).
  pose proof (path_tuned _ _ _ _ Hp1 Hw) as Hw1.
  pose proof (path_tuned _ _ _ _ Hp Hw1) as _.
  apply path_cons_inv in Hp as (e1 & e1' & w2 & Hs & Hp).
  assert (Hw2 : tuned R w2).
  { eapply path_tuned; [|exact Hw1]. econstructor; [exact Hs|constructor]. }
  apply worker_step_inv in Hs as (_ & Hpc & _). cbn in Hpc.
  (* the count *)
  destruct t2 as [|x t2]; cbn in Hp;
    destruct (path_head _ _ _ _ _ Hp Hpc) as (Hx & e2 & e2' & w3 & Hs3 & Hpc3 & Hp3);
    [discriminate|].
  pose proof (src_inv x) as Hsi. rewrite Hx in Hsi. destruct Hsi as [n ->].
  cbn in Hpc3. clear Hp Hx Hpc.
  (* the callback *)
  destruct t2 as [|x t2]; cbn in Hp3;
    destruct (path_head _ _ _ _ _ Hp3 Hpc3) as (Hx & e4 & e4' & w4 & Hs4 & Hpc4 & Hp4);
    [discriminate|].
  pose proof (src_inv x) as Hsi. rewrite Hx in Hsi. destruct Hsi as (cb & m & ->).
  cbn in Hpc4. clear Hx.
  (* the sleep *)
  assert (Hw4 : tuned R w4).
  { eapply path_tuned; [|exact Hw2].
    econstructor; [exact Hs3|]. econstructor; [exact Hs4|constructor]. }
  destruct t2 as [|x t2]; cbn in Hp4;
    destruct (path_head _ _ _ _ _ Hp4 Hpc4) as (Hx & e5 & e5' & w5 & Hs5 & Hpc5 & Hp5);
    [discriminate|].
  pose proof (src_inv x) as Hsi. rewrite Hx in Hsi.
  destruct Hsi as (d & [->| ->]); cbn in Hpc5.
  2:{ apply path_ended in Hp5; [|now right]. now destruct t2. }
  apply worker_step_inv in Hs5 as (_ & _ & _ & _ & [-> _] & _).
  destruct Hw4 as [_ Hi4]. rewrite Hpc4 in Hi4. rewrite (Hi4 eq_refl).
  clear Hx.
  (* the loop test *)
  destruct t2 as [|x t2]; cbn in Hp5;
    destruct (path_head _ _ _ _ _ Hp5 Hpc5) as (Hx & e6 & e6' & w6 & Hs6 & Hpc6 & Hp6);
    [discriminate|].
  pose proof (src_inv x) as Hsi. rewrite Hx in Hsi. destruct Hsi as ([] & ->);
    cbn in Hpc6.
  { apply path_from_exit in Hp6; [|assumption].
    destruct t2 as [|? [|? ?]]; destruct Hp6; discriminate. }
  (* and the next click *)
  destruct t2 as [|x t2]; [now eauto|]. exfalso. cbn in Hp6.
  apply path_src in Hp6. rewrite Hpc6 in Hp6.
  pose proof (src_inv x) as Hsi. rewrite <- Hp6 in Hsi. subst x.
  apply Hno. rewrite !elem_of_cons. auto 10.
Qed.

(** Which labels lead to a program point of the delay or of a click. *)
Lemma tgt_inv l :
  match tgt l with
  | AtEntry => False
  | AtDelayTest => l = LDelayTest true \/ exists d, l = LSleep Delay d
  | AtDelaySleep => l = LPoll Delay false
  | AtClick => l = LPoll Repeat false
  | AtExit => l = LPoll Repeat true
  | _ => True
  end.
Proof.
  destruct l as [[]| |[] []|[] d|[] d|d| |n|cb n|]; cbn; eauto.
Qed.

Lemma click_follows_test w0 (t1 t2 : list (label Callable)) w' :
  at_pc w0 = AtEntry ->
  path w0 (t1 ++ LClick :: t2) w' ->
  exists t0, t1 = t0 ++ [LPoll Repeat false].
Proof.
  intros H0 Hp. apply path_before in Hp as [[_ Hp]|(t0 & l0 & -> & Hp)].
  - cbn in Hp. congruence.
  - exists t0. now rewrite (tgt_AtClick _ Hp).
Qed.

Lemma exit_follows_stop_seen w0 (t1 t2 : list (label Callable)) w' :
  at_pc w0 = AtEntry ->
  path w0 (t1 ++ LExit :: t2) w' ->
  exists t0, t1 = t0 ++ [LPoll Repeat true].
Proof.
  intros H0 Hp. apply path_before in Hp as [[_ Hp]|(t0 & l0 & -> & Hp)].
  - cbn in Hp. congruence.
  - exists t0. now rewrite (tgt_AtExit _ Hp).
Qed.

Lemma no_click_after_stop_seen w0 (t1 t2 : list (label Callable)) w' :
  path w0 (t1 ++ LPoll Repeat true :: t2) w' -> LClick ∉ t2.
Proof.
  intros Hp. apply path_app_inv in Hp as (w1 & _ & Hp).
  apply path_cons_inv in Hp as (e & e' & w2 & Hs & Hp).
  apply worker_step_inv in Hs as (_ & Hpc & _). cbn in Hpc.
  apply path_from_exit in Hp; [|assumption].
  destruct Hp as [-> | ->].
  - apply not_elem_of_nil.
  - rewrite list_elem_of_singleton. discriminate.
Qed.

Lemma delay_polls_are_spaced w0 (t1 t2 : list (label Callable)) b w' :
  at_pc w0 = AtEntry ->
  path w0 (t1 ++ LPoll Delay b :: t2) w' ->
  (exists t0, t1 = t0 ++ [LDelayTest true]) \/
  (exists t0, t1 = t0 ++ [LPoll Delay false; LSleep Delay f_0_05]).
Proof.
  intros H0 Hp.
  pose proof (path_before _ _ _ _ _ Hp) as [[_ Hb]|(t0 & l0 & -> & Hb)].
  - cbn in Hb. congruence.
  - cbn in Hb. pose proof (tgt_inv l0) as Hl0. rewrite Hb in Hl0.
    destruct Hl0 as [->|[d ->]]; [left; now exists t0|right].
    rewrite <- app_assoc in Hp. cbn in Hp.
    pose proof (path_before _ _ _ _ _ Hp) as [[_ Hb']|(t00 & l00 & -> & Hb')].
    + cbn in Hb'. congruence.
    + cbn in Hb'. pose proof (tgt_inv l00) as Hl00. rewrite Hb' in Hl00.
      subst l00. exists t00. rewrite <- app_assoc. cbn.
      apply path_app_inv in Hp as (w1 & _ & Hp).
      apply path_cons_inv in Hp as (e & e' & w2 & Hs & _).
      apply worker_step_inv in Hs as (_ & _ & _ & _ & [-> _] & _).
      reflexivity.
Qed.

Lemma click_after_delay_stop_seen w0 (t1 t2 : list (label Callable)) w' :
  path w0 (t1 ++ LPoll Delay true :: t2) w' ->
  LClick ∈ t2 ->
  exists i t3, t2 = LInterval i :: LPoll Repeat false :: t3.
Proof.
  intros Hp Hin. apply path_app_inv in Hp as (w1 & _ & Hp).
  apply path_cons_inv in Hp as (e & e' & w2 & Hs & Hp).
  apply worker_step_inv in Hs as (_ & Hpc & _). cbn in Hpc.
  destruct t2 as [|x t2]; [now apply not_elem_of_nil in Hin|].
  destruct (path_head _ _ _ _ _ Hp Hpc) as (Hx & e3 & e3' & w3 & _ & Hpc3 & Hp3).
  pose proof (src_inv x) as Hsi. rewrite Hx in Hsi. destruct Hsi as [i ->].
  cbn in Hpc3. apply elem_of_cons in Hin as [Hin|Hin]; [discriminate|].
  destruct t2 as [|x t2]; [now apply not_elem_of_nil in Hin|].
  destruct (path_head _ _ _ _ _ Hp3 Hpc3) as (Hx' & e4 & e4' & w4 & _ & Hpc4 & Hp4).
  pose proof (src_inv x) as Hsi. rewrite Hx' in Hsi. destruct Hsi as [[] ->].
  - exfalso. cbn in Hpc4. apply elem_of_cons in Hin as [Hin|Hin]; [discriminate|].
    apply path_from_exit in Hp4; [|assumption].
    destruct Hp4 as [-> | ->].
    + now apply not_elem_of_nil in Hin.
    + apply list_elem_of_singleton in Hin. discriminate.
  - now exists i, t2.
Qed.

(** With the signal set and no new start, a thread on its way out takes
    no click. *)
Lemma stopping_step a s tid :
  stopping tid s ->
  (forall cps d t, snd (sys_step a s) <> Some (EvStart cps d (Some t))) ->
  stopping tid (fst (sys_step a s)) /\
  snd (sys_step a s) <> Some (EvStep tid LClick).
Proof.
  intros (Hstop & w & Hw & Hpc) Hns.
  destruct (sys_step_kind a s) as [E|t w0 w1 l Ht Hs Hth|cps d _ _ _ Hth|ev Hth Hne _ Hkeep _].
  - rewrite E. split; [|discriminate]. split; eauto.
  - apply worker_step_inv in Hs as (Hsrc & Htgt & _ & Hse & _ & Hl).
    destruct (Nat.eqb_spec t tid) as [->|Hne].
    + replace w0 with w in * by congruence. rewrite Hsrc in Hpc.
      split.
      * split; [congruence|]. exists w1. split.
        { rewrite Hth. apply list_lookup_insert_eq. now apply lookup_lt_Some in Hw. }
        rewrite Htgt.
        destruct l as [[]| |[] []|[] ?|[] ?|?| |?|? ?|]; try discriminate;
          try reflexivity.
        destruct Hl as [Hl _]. congruence.
      * intros [= ->]. discriminate.
    + split; [|congruence]. split; [congruence|]. exists w. split; [|assumption].
      rewrite Hth. now rewrite list_lookup_insert_ne.
  - now destruct (Hns cps d (length (threads s))).
  - split.
    + split; [now apply Hkeep|]. exists w. split; [congruence|assumption].
    + intros [= ->]. now destruct (Hne tid LClick).
Qed.

Lemma stopping_run tid acts : forall s,
  stopping tid s ->
  (forall cps d t, EvStart cps d (Some t) ∉ snd (run acts s)) ->
  EvStep tid LClick ∉ snd (run acts s).
Proof.
  induction acts as [|a acts IH]; intros s Hst Hns.
  - apply not_elem_of_nil.
  - rewrite run_cons in Hns |- *. cbn [snd] in *.
    assert (Hns1 : forall cps d t,
               snd (sys_step a s) <> Some (EvStart cps d (Some t))).
    { intros cps d t E. apply (Hns cps d t). rewrite E. cbn. apply list_elem_of_here. }
    destruct (stopping_step a s tid Hst Hns1) as [Hst1 Hev].
    apply not_elem_of_app. split.
    + destruct (snd (sys_step a s)) as [x|]; cbn; [|apply not_elem_of_nil].
      rewrite list_elem_of_singleton. congruence.
    + apply IH; [assumption|]. intros cps d t Hin.
      apply (Hns cps d t). apply elem_of_app. now right.
Qed.

Lemma no_click_while_signal_stays tid acts (u1 u2 : list (event Callable)) :
  trace acts = u1 ++ EvStep tid (LPoll Delay true) :: u2 ->
  (forall cps d t, EvStart cps d (Some t) ∉ u2) ->
  EvStep tid LClick ∉ u2.
Proof.
  intros Htr Hns. apply run_split in Htr as (pre & a & post & -> & _ & Hev & <-).
  apply stopping_run; [|assumption].
  destruct (sys_step_kind a (fst (run pre boot))) as [E|t w0 w1 l Ht Hs Hth|cps d _ _ _ Hth|ev Hth Hne _ _ _];
    try discriminate.
  - injection Hev as -> ->.
    apply worker_step_inv in Hs as (_ & Htgt & _ & Hse & _ & Hl & _).
    split; [congruence|]. exists w1. split.
    + rewrite Hth. apply list_lookup_insert_eq. now apply lookup_lt_Some in Ht.
    + now rewrite Htgt.
  - injection Hev as ->. now destruct (Hne tid (LPoll Delay true)).
Qed.

(** C2. A worker that [start_clicking] starts for a rate [R > 0] does,
    between two successive clicks, exactly this: it counts the click,
    calls the click callback, sleeps once for [1.0 / R] and tests the stop
    signal. *)
Theorem clicks_are_one_interval_apart acts R d tid
    (t1 t2 t3 : list (label Callable)) :
  gt R zero = true ->
  EvStart R d (Some tid) ∈ trace acts ->
  labels_of tid (trace acts) = t1 ++ LClick :: t2 ++ LClick :: t3 ->
  LClick ∉ t2 ->
  exists n cb m,
    t2 = [LCount n; LCallback cb m; LSleep Repeat (div f_1_0 R);
          LPoll Repeat false].
Proof.
  intros HR Hin Hls Hno.
  apply run_spawned in Hin as (_ & w' & Hp). fold (trace acts) in Hp.
  rewrite Hls in Hp.
  destruct (between_clicks R _ _ _ _ _ (tuned_spawn R d) Hp Hno)
    as (n & cb & m & ->).
  exists n, cb, m. unfold compute_interval. now rewrite HR.
Qed.

(** C1. [stop_clicking] sets the stop signal.  In every run, each click
    of a loop directly follows a test of the repeat phase that found the
    signal unset, and no click of the loop follows a test of the repeat
    phase that found it set.  In the delay phase a poll is the first one
    or follows the previous poll after one sleep of 0.05 s.  After a poll
    of the delay phase that found the signal set, the loop clicks again
    only if its test at the head of the repeat phase finds the signal
    unset; it does not click as long as no [start_clicking] starts a
    worker, which is what clears the signal. *)
Theorem stop_halts_the_loop :
  (forall self, _stop_event (stop_clicking self) = true) /\
  (forall acts tid (t1 t2 : list (label Callable)),
      labels_of tid (trace acts) = t1 ++ LClick :: t2 ->
      exists t0, t1 = t0 ++ [LPoll Repeat false]) /\
  (forall acts tid (t1 t2 : list (label Callable)),
      labels_of tid (trace acts) = t1 ++ LPoll Repeat true :: t2 ->
      LClick ∉ t2) /\
  (forall acts tid (t1 t2 : list (label Callable)) b,
      labels_of tid (trace acts) = t1 ++ LPoll Delay b :: t2 ->
      (exists t0, t1 = t0 ++ [LDelayTest true]) \/
      (exists t0, t1 = t0 ++ [LPoll Delay false; LSleep Delay f_0_05])) /\
  (forall acts tid (t1 t2 : list (label Callable)),
      labels_of tid (trace acts) = t1 ++ LPoll Delay true :: t2 ->
      LClick ∈ t2 ->
      exists i t3, t2 = LInterval i :: LPoll Repeat false :: t3) /\
  (forall acts tid (u1 u2 : list (event Callable)),
      trace acts = u1 ++ EvStep tid (LPoll Delay true) :: u2 ->
      (forall cps d t, EvStart cps d (Some t) ∉ u2) ->
      EvStep tid LClick ∉ u2).
Proof.
  split; [reflexivity|].
  repeat split.
  - intros acts tid t1 t2 Hls.
    destruct (trace_path acts tid) as (w0 & w' & H0 & Hp). rewrite Hls in Hp.
    eapply click_follows_test; eassumption.
  - intros acts tid t1 t2 Hls.
    destruct (trace_path acts tid) as (w0 & w' & H0 & Hp). rewrite Hls in Hp.
    eapply no_click_after_stop_seen; eassumption.
  - intros acts tid t1 t2 b Hls.
    destruct (trace_path acts tid) as (w0 & w' & H0 & Hp). rewrite Hls in Hp.
    eapply delay_polls_are_spaced; eassumption.
  - intros acts tid t1 t2 Hls.
    destruct (trace_path acts tid) as (w0 & w' & H0 & Hp). rewrite Hls in Hp.
    eapply click_after_delay_stop_seen; eassumption.
  - intros acts tid. apply no_click_while_signal_stays.
Qed.

(** C6. A fresh engine is not clicking, [start_clicking] leaves it
    clicking and [stop_clicking] not clicking.  In a run the flag changes
    only in a call of one of the two, or in the last statement of a click
    loop, which sets it to false; a loop reaches that statement only from
    the test of the repeat phase that found the stop signal set. *)
Theorem is_clicking_lifecycle :
  is_clicking (__init__ (Callable:=Callable)) = false /\
  (forall self cps d tid,
      is_clicking (fst (start_clicking cps d tid self)) = true) /\
  (forall self, is_clicking (stop_clicking self) = false) /\
  (forall a s,
      is_clicking (shared (fst (sys_step a s))) <> is_clicking (shared s) ->
      (exists cps d, a = CallStart cps d) \/ a = CallStop \/
      (exists tid, snd (sys_step a s) = Some (EvStep tid LExit) /\
                   is_clicking (shared (fst (sys_step a s))) = false)) /\
  (forall acts tid (t1 t2 : list (label Callable)),
      labels_of tid (trace acts) = t1 ++ LExit :: t2 ->
      exists t0, t1 = t0 ++ [LPoll Repeat true]).
Proof.
  split; [reflexivity|]. split.
  { intros self cps d tid. unfold start_clicking.
    now destruct (is_clicking self) eqn:E. }
  split; [reflexivity|]. split.
  - intros a s Hch. destruct a as [cb| |cps d| |tid]; eauto; cbn in Hch;
      try congruence.
    right. right. exists tid. revert Hch. cbn.
    destruct (threads s !! tid) as [w|]; [|intros Hch; now destruct Hch].
    destruct (worker_step (shared s) w) as [[[e w'] l]|] eqn:Hs;
      [|intros Hch; now destruct Hch].
    cbn. intros Hch.
    apply worker_step_inv in Hs as (_ & _ & _ & _ & _ & Hl).
    destruct l; try (subst e; congruence).
    + destruct Hl as [_ ->]. congruence.
    + destruct Hl as (_ & _ & Hl). congruence.
    + now destruct Hl.
  - intros acts tid t1 t2 Hls.
    destruct (trace_path acts tid) as (w0 & w' & H0 & Hp). rewrite Hls in Hp.
    eapply exit_follows_stop_seen; eassumption.
Qed.

End WorkerRuns.

(* ===================================================================== *)
(** * Runs on concrete inputs                                             *)
(* ===================================================================== *)

(** The click callbacks are named by numbers here. *)

(** C1, as first stated, fails: a loop started with a delay of 0.5 s
    finds the stop signal set in the delay phase; [start_clicking] is
    called again and clears the signal; the loop, which has left the
    delay, finds the signal unset at the head of the repeat phase, and
    clicks. *)
Lemma click_after_stop_seen_in_delay :
  let acts : list (Engine.action nat) :=
    [Engine.CallStart Py.f_10_0 Py.f_0_5; Engine.Step 0;
     Engine.CallStop; Engine.Step 0;
     Engine.CallStart Py.f_10_0 Py.f_0_5;
     Engine.Step 0; Engine.Step 0; Engine.Step 0] in
  Engine.labels_of 0 (Engine.trace acts)
  = [Engine.LDelayTest true; Engine.LPoll Engine.Delay true;
     Engine.LInterval Py.f_0_1; Engine.LPoll Engine.Repeat false;
     Engine.LClick].
Proof. reflexivity. Qed.

Lemma stop_halts_the_loop_witness :
  Engine.EvStep (Callable:=nat) 0 Engine.LClick
  ∉ [Engine.EvStep 0 (Engine.LInterval Py.f_0_1);
     Engine.EvStep 0 (Engine.LPoll Engine.Repeat true);
     Engine.EvStep 0 Engine.LExit].
Proof.
  apply (proj2 (proj2 (proj2 (proj2 (proj2 (stop_halts_the_loop (Callable:=nat))))))
    [Engine.CallStart Py.f_10_0 Py.f_0_5; Engine.Step 0;
     Engine.CallStop; Engine.Step 0;
     Engine.Step 0; Engine.Step 0; Engine.Step 0]
    0%nat
    [Engine.EvStart Py.f_10_0 Py.f_0_5 (Some 0%nat);
     Engine.EvStep 0 (Engine.LDelayTest true); Engine.EvStop]).
  - reflexivity.
  - intros cps d t. rewrite !not_elem_of_cons.
    repeat split; try discriminate. apply not_elem_of_nil.
Defined.

(** C6, as first stated, fails: the engine is started, stopped, and its
    loop finds the signal set; [start_clicking] is called again and sets
    the flag; the first loop then runs its last statement, which clears
    the flag although neither method was called. *)
Lemma loop_exit_clears_flag_of_restarted_engine :
  let acts : list (Engine.action nat) :=
    [Engine.CallStart Py.f_10_0 Py.zero; Engine.CallStop;
     Engine.Step 0; Engine.Step 0; Engine.Step 0;
     Engine.CallStart Py.f_10_0 Py.zero] in
  let s := fst (Engine.run acts Engine.boot) in
  Engine.is_clicking (Engine.shared s) = true /\
  snd (Engine.sys_step (Engine.Step 0) s)
  = Some (Engine.EvStep 0 Engine.LExit) /\
  Engine.is_clicking (Engine.shared (fst (Engine.sys_step (Engine.Step 0) s)))
  = false /\
  length (Engine.threads s) = 2%nat.
Proof. repeat split. Qed.

Lemma is_clicking_lifecycle_witness :
  (exists cps d, Engine.CallStop (Callable:=nat) = Engine.CallStart cps d) \/
  Engine.CallStop (Callable:=nat) = Engine.CallStop \/
  (exists tid,
      snd (Engine.sys_step (Callable:=nat) Engine.CallStop
             (fst (Engine.run [Engine.CallStart Py.f_10_0 Py.zero] Engine.boot)))
      = Some (Engine.EvStep tid Engine.LExit) /\
      Engine.is_clicking
        (Engine.shared
           (fst (Engine.sys_step (Callable:=nat) Engine.CallStop
              (fst (Engine.run [Engine.CallStart Py.f_10_0 Py.zero]
                               Engine.boot)))))
      = false).
Proof.
  apply (proj1 (proj2 (proj2 (proj2 (is_clicking_lifecycle (Callable:=nat)))))
           Engine.CallStop
           (fst (Engine.run [Engine.CallStart Py.f_10_0 Py.zero] Engine.boot))).
  discriminate.
Defined.

Lemma clicks_are_one_interval_apart_witness :
  exists n cb m,
    [Engine.LCount 1; Engine.LCallback None 1;
     Engine.LSleep Engine.Repeat Py.f_0_1; Engine.LPoll Engine.Repeat false]
    = [Engine.LCount n; Engine.LCallback (Callable:=nat) cb m;
       Engine.LSleep Engine.Repeat (Py.div Py.f_1_0 Py.f_10_0);
       Engine.LPoll Engine.Repeat false].
Proof.
  apply (clicks_are_one_interval_apart (Callable:=nat)
           [Engine.CallStart Py.f_10_0 Py.zero; Engine.Step 0; Engine.Step 0;
            Engine.Step 0; Engine.Step 0; Engine.Step 0; Engine.Step 0;
            Engine.Step 0; Engine.Step 0; Engine.Step 0]
           Py.f_10_0 Py.zero 0%nat
           [Engine.LDelayTest false; Engine.LInterval Py.f_0_1;
            Engine.LPoll Engine.Repeat false]
           _ []).
  - reflexivity.
  - apply list_elem_of_here.
  - reflexivity.
  - rewrite !not_elem_of_cons. repeat split; try discriminate.
    apply not_elem_of_nil.
Defined.

Lemma start_clicking_while_clicking_witness :
  Engine.start_clicking Py.f_10_0 Py.zero 1
    (fst (Engine.start_clicking (Callable:=nat) Py.f_10_0 Py.zero 0
            Engine.__init__))
  = (fst (Engine.start_clicking Py.f_10_0 Py.zero 0 Engine.__init__), None).
Proof.
  apply (start_clicking_while_clicking (Callable:=nat)
           (fst (Engine.start_clicking Py.f_10_0 Py.zero 0 Engine.__init__))
           Py.f_10_0 Py.zero 1).
  reflexivity.
Defined.

(* ===================================================================== *)
(** * More on the engine and its loop                                     *)
(* ===================================================================== *)

Section EngineInvariants.
Import Py Engine Loop.
Context {Callable : Type}.
Implicit Types (self : ClickerEngine Callable) (w : worker).
Implicit Types (l : label Callable) (ls : list (label Callable)).
Implicit Types (s : system Callable) (a : action Callable).
Implicit Types (tr : list (event Callable)) (acts : list (action Callable)).

Lemma sys_step_idle_when_stopped a s :
  (_stop_event (shared s) = true -> is_clicking (shared s) = false) ->
  _stop_event (shared (fst (sys_step a s))) = true ->
  is_clicking (shared (fst (sys_step a s))) = false.
Proof.
  intros Hinv. destruct a as [cb| |cps d| |tid]; cbn; auto.
  - unfold start_clicking. destruct (is_clicking (shared s)) eqn:E; cbn.
    + rewrite E. exact Hinv.
    + discriminate.
  - destruct (threads s !! tid) as [w|]; [|assumption].
    destruct (worker_step (shared s) w) as [[[e w'] l]|] eqn:Hs; [|assumption].
    cbn. apply worker_step_inv in Hs as (_ & _ & _ & Hse & _ & Hl).
    rewrite Hse. intros Hstop. specialize (Hinv Hstop).
    destruct l; try (subst e; assumption).
    + destruct Hl as [_ ->]. assumption.
    + destruct Hl as (_ & _ & ->). assumption.
    + now destruct Hl.
Qed.

(** X1. In every state a run from the fresh engine reaches, a set stop
    signal means the engine is marked as not clicking. *)
Theorem stop_signal_means_idle acts :
  _stop_event (shared (fst (run acts (boot (Callable:=Callable))))) = true ->
  is_clicking (shared (fst (run acts (boot (Callable:=Callable))))) = false.
Proof.
  assert (G : forall acts s,
             (_stop_event (shared s) = true -> is_clicking (shared s) = false) ->
             _stop_event (shared (fst (run acts s))) = true ->
             is_clicking (shared (fst (run acts s))) = false).
  { clear acts. induction acts as [|a acts IH]; intros s Hinv; [exact Hinv|].
    rewrite run_cons. cbn [fst]. apply IH.
    now apply sys_step_idle_when_stopped. }
  apply G. discriminate.
Qed.

Lemma step_under_stop self w self' w' l :
  worker_step self w = Some (self', w', l) ->
  _stop_event self = true ->
  (remaining (at_pc w') < remaining (at_pc w))%nat /\
  ((if is_click l then 1 else 0) + may_click (at_pc w') <= may_click (at_pc w))%nat.
Proof.
  intros Hs Hstop.
  apply worker_step_inv in Hs as (-> & -> & _ & _ & _ & Hl).
  destruct l as [[]| |[] b|[] ?|[] ?|?| |?|? ?|]; cbn; try lia;
    destruct Hl as [-> _]; rewrite Hstop; cbn; lia.
Qed.

Lemma nclicks_cons l ls :
  nclicks (l :: ls) = ((if is_click l then 1 else 0) + nclicks ls)%nat.
Proof. unfold nclicks. cbn. now destruct (is_click l). Qed.

Lemma stopped_thread_bound acts : forall s tid,
  _stop_event (shared s) = true ->
  (forall cps d t, EvStart cps d (Some t) ∉ snd (run acts s)) ->
  match threads s !! tid with
  | Some w =>
      (length (labels_of tid (snd (run acts s))) <= remaining (at_pc w))%nat /\
      (nclicks (labels_of tid (snd (run acts s))) <= may_click (at_pc w))%nat
  | None => labels_of tid (snd (run acts s)) = []
  end.
Proof.
  induction acts as [|a acts IH]; intros s tid Hstop Hns.
  - cbn. destruct (threads s !! tid); [split; cbn; lia|reflexivity].
  - rewrite run_cons in Hns |- *. cbn [snd] in *. rewrite labels_of_app.
    assert (Hns1 : forall cps d t,
               EvStart cps d (Some t) ∉ snd (run acts (fst (sys_step a s)))).
    { intros cps d t Hin. apply (Hns cps d t). apply elem_of_app. now right. }
    assert (Hns0 : forall cps d t,
               snd (sys_step a s) <> Some (EvStart cps d (Some t))).
    { intros cps d t E. apply (Hns cps d t). rewrite E. cbn.
      apply list_elem_of_here. }
    specialize (IH (fst (sys_step a s)) tid).
    destruct (sys_step_kind a s)
      as [E|t w0 w1 l Ht Hs Hth|cps d _ _ _ Hth|ev Hth Hne _ Hkeep _].
    + rewrite E in *. cbn. now apply IH.
    + pose proof (worker_step_inv _ _ _ _ _ Hs) as (_ & _ & _ & Hse & _).
      specialize (IH ltac:(congruence) Hns1). rewrite Hth in IH.
      cbn [olist labels_of].
      destruct (Nat.eqb_spec t tid) as [->|Hneq]; cbn [app].
      * rewrite Ht. rewrite list_lookup_insert_eq in IH
          by (now apply lookup_lt_Some in Ht).
        destruct (step_under_stop _ _ _ _ _ Hs Hstop) as [Hr Hc].
        destruct IH as [IH1 IH2]. cbn [app length]. rewrite nclicks_cons.
        split; lia.
      * rewrite list_lookup_insert_ne in IH by assumption. exact IH.
    + now destruct (Hns0 cps d (length (threads s))).
    + specialize (IH (Hkeep Hstop) Hns1). rewrite Hth in IH.
      replace (labels_of tid (olist (Some ev))) with (@nil (label Callable)).
      * exact IH.
      * destruct ev; cbn; try reflexivity. now destruct (Hne tid0 l).
Qed.

(** X2. Once the stop signal is set, and as long as no [start_clicking]
    starts a new worker, every thread takes at most six more steps and
    sends at most one more click. *)
Theorem stopped_loop_ends acts s tid :
  _stop_event (shared s) = true ->
  (forall cps d t, EvStart cps d (Some t) ∉ snd (run acts s)) ->
  (length (labels_of tid (snd (run acts s))) <= 6)%nat /\
  (nclicks (labels_of tid (snd (run acts s))) <= 1)%nat.
Proof.
  intros Hstop Hns.
  pose proof (stopped_thread_bound acts s tid Hstop Hns) as H.
  destruct (threads s !! tid) as [w|].
  - destruct H as [H1 H2]. split.
    + etransitivity; [exact H1|]. destruct (at_pc w); cbn; lia.
    + etransitivity; [exact H2|]. destruct (at_pc w); cbn; lia.
  - rewrite H. cbn. lia.
Qed.

End EngineInvariants.

Lemma stop_signal_means_idle_witness :
  Engine.is_clicking
    (Engine.shared
       (fst (Engine.run [Engine.CallStart Py.f_10_0 Py.zero; Engine.Step 0;
                         Engine.CallStop; Engine.Step 0]
                        (Engine.boot (Callable:=nat)))))
  = false.
Proof.
  apply (stop_signal_means_idle (Callable:=nat)
           [Engine.CallStart Py.f_10_0 Py.zero; Engine.Step 0;
            Engine.CallStop; Engine.Step 0]).
  reflexivity.
Defined.

Lemma stopped_loop_ends_witness :
  (length
    (Engine.labels_of 0
       (snd (Engine.run (repeat (Engine.Step 0) 9)
               (fst (Engine.run [Engine.CallStart Py.f_10_0 Py.zero;
                                 Engine.Step 0; Engine.Step 0; Engine.Step 0;
                                 Engine.CallStop]
                                (Engine.boot (Callable:=nat)))))))
  <= 6)%nat /\
  (Loop.nclicks
    (Engine.labels_of 0
       (snd (Engine.run (repeat (Engine.Step 0) 9)
               (fst (Engine.run [Engine.CallStart Py.f_10_0 Py.zero;
                                 Engine.Step 0; Engine.Step 0; Engine.Step 0;
                                 Engine.CallStop]
                                (Engine.boot (Callable:=nat)))))))
  <= 1)%nat.
Proof.
  apply (stopped_loop_ends (Callable:=nat)).
  - reflexivity.
  - intros cps d t.
    match goal with |- _ ∉ ?x => set (tr := x) end.
    vm_compute in tr. subst tr. rewrite !not_elem_of_cons.
    repeat split; try discriminate. apply not_elem_of_nil.
Defined.

(* ===================================================================== *)
(** * The durations the loop sleeps                                       *)
(* ===================================================================== *)

Section SleepArguments.
Import Py Engine Loop.









Context {Callable : Type}.
Implicit Types (self : ClickerEngine Callable) (w : worker).
Implicit Types (l : label Callable) (acts : list (action Callable)).


End SleepArguments.


(* ===================================================================== *)
(** * The click counter against the clicks sent                           *)
(* ===================================================================== *)

Section ClickCounter.
Import Py Engine Loop.
Context {Callable : Type}.
Implicit Types (self : ClickerEngine Callable) (w : worker).
Implicit Types (l : label Callable) (s : system Callable).
Implicit Types (a : action Callable) (acts : list (action Callable)).
Implicit Types (tr : list (event Callable)).

Lemma filter_length_insert {A} (f : A -> bool) (ws : list A) : forall i x y,
  ws !! i = Some x ->
  (length (List.filter f (<[i := y]> ws)) + (if f x then 1 else 0)
   = length (List.filter f ws) + (if f y then 1 else 0))%nat.
Proof.
  induction ws as [|z ws IH]; intros [|i] x y Hx; try discriminate.
  - injection Hx as ->. cbn.
    destruct (f x), (f y); cbn; lia.
  - specialize (IH i x y Hx).
    change (<[S i:=y]> (z :: ws)) with (z :: <[i:=y]> ws).
    cbn [List.filter]. destruct (f z); cbn [length]; lia.
Qed.

Lemma clicks_sent_app tr1 tr2 :
  clicks_sent (tr1 ++ tr2) = (clicks_sent tr1 + clicks_sent tr2)%nat.
Proof.
  unfold clicks_sent, nclicks.
  now rewrite omap_app, List.filter_app, length_app.
Qed.

Lemma clicks_counted_app tr1 tr2 :
  clicks_counted (tr1 ++ tr2)
  = (clicks_counted tr1 + clicks_counted tr2)%nat.
Proof.
  unfold clicks_counted.
  now rewrite omap_app, List.filter_app, length_app.
Qed.

(** One action: a click sent leaves its thread with a count to make, the
    count settles it, nothing else touches the balance. *)
Lemma sys_step_balance a s :
  (clicks_sent (olist (snd (sys_step a s))) + uncounted (threads s)
   = clicks_counted (olist (snd (sys_step a s)))
     + uncounted (threads (fst (sys_step a s))))%nat /\
  (a <> CallReset ->
   click_count (shared (fst (sys_step a s)))
   = (click_count (shared s)
      + N.of_nat (clicks_counted (olist (snd (sys_step a s)))))%N).
Proof.
  split.
  - destruct (sys_step_kind a s)
      as [E|t w0 w1 l Ht Hs Hth|cps d _ _ _ Hth|ev Hth Hne _ _ _].
    + now rewrite E.
    + rewrite Hth. unfold uncounted.
      pose proof (filter_length_insert at_count _ _ _ w1 Ht) as Hb.
      apply worker_step_inv in Hs as (Hsrc & Htgt & _).
      assert (H0 : at_count w0 = match src l with AtCount => true | _ => false end)
        by (unfold at_count; now rewrite Hsrc).
      assert (H1 : at_count w1 = match tgt l with AtCount => true | _ => false end)
        by (unfold at_count; now rewrite Htgt).
      rewrite H0, H1 in Hb. clear H0 H1.
      unfold clicks_sent, clicks_counted, nclicks.
      destruct l as [[]| |[] []|[] ?|[] ?|?| |?|? ?|]; cbn in *; lia.
    + rewrite Hth. unfold uncounted.
      rewrite List.filter_app, length_app. cbn. lia.
    + rewrite Hth. unfold clicks_sent, clicks_counted, nclicks.
      destruct ev; cbn; try lia. now destruct (Hne tid l).
  - intros Hr. destruct a as [cb| |cps d| |tid]; cbn; try congruence;
      try (now rewrite N.add_0_r).
    + unfold start_clicking.
      destruct (is_clicking (shared s)); cbn; now rewrite N.add_0_r.
    + destruct (threads s !! tid) as [w|]; [|cbn; now rewrite N.add_0_r].
      destruct (worker_step (shared s) w) as [[[e w'] l]|] eqn:Hs;
        [|cbn; now rewrite N.add_0_r].
      cbn. apply worker_step_inv in Hs as (_ & _ & _ & _ & _ & Hl).
      unfold clicks_counted. cbn.
      destruct l; cbn; try (subst e; now rewrite N.add_0_r).
      * destruct Hl as [_ ->]. now rewrite N.add_0_r.
      * destruct Hl as (-> & -> & _). reflexivity.
      * destruct Hl as [_ ->]. now rewrite N.add_0_r.
Qed.

Lemma run_balance acts : forall s,
  (clicks_sent (snd (run acts s)) + uncounted (threads s)
   = clicks_counted (snd (run acts s))
     + uncounted (threads (fst (run acts s))))%nat /\
  (CallReset ∉ acts ->
   click_count (shared (fst (run acts s)))
   = (click_count (shared s)
      + N.of_nat (clicks_counted (snd (run acts s))))%N).
Proof.
  induction acts as [|a acts IH]; intros s.
  - cbn. split; [reflexivity|]. intros _. now rewrite N.add_0_r.
  - rewrite run_cons. cbn [fst snd].
    rewrite clicks_sent_app, clicks_counted_app.
    destruct (sys_step_balance a s) as [Hb Hc].
    destruct (IH (fst (sys_step a s))) as [IHb IHc].
    split; [lia|]. intros Hr. apply not_elem_of_cons in Hr as [Hr1 Hr2].
    rewrite (IHc Hr2), (Hc ltac:(congruence)). lia.
Qed.

Lemma uncounted_le_nlive (ws : list worker) :
  (uncounted ws <= nlive ws)%nat.
Proof.
  unfold uncounted, nlive, at_count, live.
  induction ws as [|w ws IH]; cbn [List.filter]; [lia|].
  destruct (at_pc w); cbn [length]; lia.
Qed.

Lemma one_at_a_time_end acts : forall s,
  one_at_a_time acts s = true ->
  (nlive (threads (fst (run acts s))) <= 1)%nat.
Proof.
  induction acts as [|a acts IH]; intros s Ho;
    cbn [one_at_a_time] in Ho; apply andb_true_iff in Ho as [H1 H2].
  - now apply Nat.leb_le in H1.
  - rewrite run_cons. cbn [fst]. now apply IH.
Qed.

(** X4. Take a run from the fresh engine without a reset in which never
    more than one loop is alive at a time: every start finds the loops
    started before it ended.  The one loop alive is then the only writer
    of [click_count], and the count is the number of counting steps
    taken; the clicks sent are those counted, plus one if the loop has
    clicked and not counted yet.  So the count never exceeds the clicks
    sent and lags behind them by at most one, over every number of
    start-and-stop rounds. *)
Theorem lone_loop_counts_every_click acts :
  CallReset ∉ acts ->
  one_at_a_time acts (boot (Callable:=Callable)) = true ->
  let s := fst (run acts (boot (Callable:=Callable))) in
  click_count (shared s) = N.of_nat (clicks_counted (trace acts)) /\
  clicks_sent (trace acts)
  = (clicks_counted (trace acts) + uncounted (threads s))%nat /\
  (clicks_counted (trace acts) <= clicks_sent (trace acts))%nat /\
  (clicks_sent (trace acts) <= clicks_counted (trace acts) + 1)%nat.
Proof.
  intros Hr Ho s. destruct (run_balance acts boot) as [Hb Hc].
  specialize (Hc Hr). fold (trace acts) in Hb, Hc. fold s in Hb, Hc.
  cbn in Hb, Hc.
  pose proof (uncounted_le_nlive (threads s)) as Hu.
  pose proof (one_at_a_time_end acts boot Ho) as Hl. fold s in Hl.
  repeat split; try lia; now rewrite Hc.
Qed.

End ClickCounter.

(** Two rounds: the first loop clicks twice, is stopped before it has
    counted the second click and runs to its end; the second loop is
    started then and clicks once. *)
Lemma lone_loop_counts_every_click_witness :
  Engine.click_count
    (Engine.shared
       (fst (Engine.run
               (Engine.CallStart Py.f_10_0 Py.zero
                :: repeat (Engine.Step 0) 9
                ++ Engine.CallStop :: repeat (Engine.Step 0) 5
                ++ Engine.CallStart Py.f_10_0 Py.zero
                :: repeat (Engine.Step 1) 5)
               (Engine.boot (Callable:=nat)))))
  = 3%N /\
  Loop.clicks_sent (Callable:=nat)
    (Engine.trace
       (Engine.CallStart Py.f_10_0 Py.zero
        :: repeat (Engine.Step 0) 9
        ++ Engine.CallStop :: repeat (Engine.Step 0) 5
        ++ Engine.CallStart Py.f_10_0 Py.zero
        :: repeat (Engine.Step 1) 5))
  = 3%nat.
Proof.
  assert (Hr : Engine.CallReset
               ∉ Engine.CallStart (Callable:=nat) Py.f_10_0 Py.zero
                 :: repeat (Engine.Step 0) 9
                 ++ Engine.CallStop :: repeat (Engine.Step 0) 5
                 ++ Engine.CallStart Py.f_10_0 Py.zero
                 :: repeat (Engine.Step 1) 5).
  { cbn. rewrite !not_elem_of_cons. repeat split; try discriminate.
    apply not_elem_of_nil. }
  destruct (lone_loop_counts_every_click (Callable:=nat) _ Hr eq_refl)
    as (Hc & Hs & _).
  split; [rewrite Hc|rewrite Hs]; reflexivity.
Defined.

(* ===================================================================== *)
(** * The delay phase and the fallback interval                           *)
(* ===================================================================== *)

Section DelayPhase.
Import Py Engine Loop.
Context {Callable : Type}.
Implicit Types (self : ClickerEngine Callable) (w : worker).
Implicit Types (l : label Callable) (ls : list (label Callable)).
Implicit Types (acts : list (action Callable)).

Lemma worker_step_delay self w self' w' l :
  worker_step self w = Some (self', w', l) ->
  delay w' = delay w /\
  match l with
  | LDelayTest true => gt (delay w) zero = true /\ elapsed w' = zero
  | LPoll Delay _ => lt (elapsed w) (delay w) = true /\ elapsed w' = elapsed w
  | LElapsed => lt (elapsed w) (delay w) = false
  | LSleep Delay _ => elapsed w' = add (elapsed w) f_0_05
  | _ => True
  end.
Proof.
  unfold worker_step, time_sleep. intros Hs.
  destruct (at_pc w);
    repeat match type of Hs with
           | context [if ?b then _ else _] => destruct b eqn:?
           end;
    inversion Hs; subst; cbn; auto.
Qed.

Lemma nsleeps_snoc ls l :
  nsleeps (ls ++ [l])
  = (nsleeps ls + (if is_delay_sleep l then 1 else 0))%nat.
Proof.
  unfold nsleeps. rewrite List.filter_app, length_app. cbn.
  now destruct (is_delay_sleep l).
Qed.

Lemma delay_inv_step d self w self' w' l pre :
  worker_step self w = Some (self', w', l) ->
  delay_inv d (nsleeps pre) w ->
  delay_inv d (nsleeps (pre ++ [l])) w'.
Proof.
  intros Hs [Hd Hinv]. rewrite nsleeps_snoc.
  pose proof (worker_step_inv _ _ _ _ _ Hs) as (Hsrc & Htgt & _).
  pose proof (worker_step_delay _ _ _ _ _ Hs) as (Hd' & Hl).
  split; [congruence|]. rewrite Htgt. rewrite Hsrc in Hinv.
  destruct l as [[]| |[] []|[] ?|[] ?|?| |?|? ?|]; cbn in *; try exact I.
  - destruct Hl as [Hg ->]. rewrite Hinv. cbn.
    split; [congruence|]. split; [reflexivity|]. intros j Hj. lia.
  - destruct Hinv as (Hg & He & Hj). destruct Hl as [Hlt ->].
    rewrite Nat.add_0_r. split; [assumption|]. split; [assumption|].
    intros j Hle. destruct (Nat.eq_dec j (nsleeps pre)) as [->|Hne].
    + rewrite <- He. congruence.
    + apply Hj. lia.
  - destruct Hinv as (Hg & He & Hj). rewrite Hl, He.
    replace (nsleeps pre + 1)%nat with (S (nsleeps pre)) by lia.
    split; [assumption|]. split; [reflexivity|]. intros j Hlt. apply Hj. lia.
Qed.

Lemma path_delay_inv d ls : forall w w' pre,
  path w ls w' ->
  delay_inv d (nsleeps pre) w ->
  delay_inv d (nsleeps (pre ++ ls)) w'.
Proof.
  induction ls as [|l ls IH]; intros w w' pre Hp Hinv.
  - apply path_nil_inv in Hp. subst. now rewrite app_nil_r.
  - apply path_cons_inv in Hp as (self & self' & w1 & Hs & Hp).
    replace (pre ++ l :: ls) with ((pre ++ [l]) ++ ls)
      by (now rewrite <- app_assoc).
    eapply IH; [exact Hp|]. eapply delay_inv_step; eassumption.
Qed.

(** X5. A loop started with the delay [d] that leaves the delay phase
    because the delay has elapsed has slept 0.05 s exactly [k] times
    there, where [k >= 1] is the least number of rounded additions of
    0.05 that bring [elapsed] from 0 to a value not below [d]. *)
Theorem delay_lasts_until_elapsed acts cps d tid
    (t1 t2 : list (label Callable)) :
  EvStart cps d (Some tid) ∈ trace acts ->
  labels_of tid (trace acts) = t1 ++ LElapsed :: t2 ->
  (1 <= nsleeps t1)%nat /\
  lt (ticks (nsleeps t1)) d = false /\
  forall j, (j < nsleeps t1)%nat -> lt (ticks j) d = true.
Proof.
  intros Hin Hls. apply run_spawned in Hin as (_ & w' & Hp).
  fold (trace acts) in Hp. rewrite Hls in Hp.
  apply path_app_inv in Hp as (w1 & Hp1 & Hp).
  assert (H0 : delay_inv d (nsleeps (@nil (label Callable))) (spawn cps d))
    by (split; reflexivity).
  pose proof (path_delay_inv d _ _ _ _ Hp1 H0) as [Hd Hinv]. cbn [app] in Hinv.
  apply path_cons_inv in Hp as (self & self' & w2 & Hs & _).
  pose proof (worker_step_inv _ _ _ _ _ Hs) as (Hsrc & _).
  pose proof (worker_step_delay _ _ _ _ _ Hs) as (_ & Hl).
  cbn in Hsrc, Hl. rewrite Hsrc in Hinv. destruct Hinv as (Hg & He & Hj).
  rewrite He, Hd in Hl. repeat split; try assumption.
  destruct (nsleeps t1); [|lia]. exfalso.
  change (lt zero d = false) in Hl. unfold gt, lt in *. congruence.
Qed.

(** For a delay of 0.5 s that makes eleven sleeps: ten additions of 0.05
    give 0.49999999999999994. *)
Example delay_of_half_a_second :
  lt (ticks 10) f_0_5 = true /\ lt (ticks 11) f_0_5 = false.
Proof. split; reflexivity. Qed.

(** X6. A worker started for a rate that is not positive (zero, negative
    or a NaN) sleeps 0.1 s between two successive clicks. *)
Theorem nonpositive_rate_sleeps_a_tenth acts R d tid
    (t1 t2 t3 : list (label Callable)) :
  gt R zero = false ->
  EvStart R d (Some tid) ∈ trace acts ->
  labels_of tid (trace acts) = t1 ++ LClick :: t2 ++ LClick :: t3 ->
  LClick ∉ t2 ->
  exists n cb m,
    t2 = [LCount n; LCallback cb m; LSleep Repeat f_0_1; LPoll Repeat false].
Proof.
  intros HR Hin Hls Hno.
  apply run_spawned in Hin as (_ & w' & Hp). fold (trace acts) in Hp.
  rewrite Hls in Hp.
  destruct (between_clicks R _ _ _ _ _ (tuned_spawn R d) Hp Hno)
    as (n & cb & m & ->).
  exists n, cb, m. unfold compute_interval. now rewrite HR.
Qed.

Lemma path_past_delay ls : forall w w',
  path w ls w' ->
  past_delay (at_pc w) = true ->
  forall l, l ∈ ls -> past_delay (src l) = true.
Proof.
  induction ls as [|l0 ls IH]; intros w w' Hp Hw l Hin.
  - now apply not_elem_of_nil in Hin.
  - apply path_cons_inv in Hp as (self & self' & w1 & Hs & Hp).
    apply worker_step_inv in Hs as (Hsrc & Htgt & _).
    apply elem_of_cons in Hin as [->|Hin]; [congruence|].
    apply (IH _ _ Hp); [|assumption]. rewrite Htgt. rewrite Hsrc in Hw.
    destruct l0 as [[]| |[] []|[] ?|[] ?|?| |?|? ?|]; cbn in *; congruence.
Qed.

(** X19. A worker started with a delay that is not positive (zero,
    negative or a NaN) skips the delay phase: it never polls or sleeps
    there, and its first step after the test of the delay computes the
    interval. *)
Theorem nonpositive_delay_is_skipped acts cps d tid :
  gt d zero = false ->
  EvStart cps d (Some tid) ∈ trace acts ->
  labels_of tid (trace acts) = [] \/
  exists rest,
    labels_of tid (trace acts) = LDelayTest false :: rest /\
    (forall l, l ∈ rest -> past_delay (src l) = true) /\
    (rest = [] \/ exists rest',
        rest = LInterval (compute_interval cps) :: rest').
Proof.
  intros Hd Hin. apply run_spawned in Hin as (_ & w' & Hp).
  fold (trace acts) in Hp.
  destruct (labels_of tid (trace acts)) as [|l rest]; [now left|right].
  destruct (path_head _ _ _ _ AtEntry Hp eq_refl)
    as (Hsrc & self & self' & w1 & Hs & Htgt & Hp1).
  pose proof (src_inv l) as Hl. rewrite Hsrc in Hl. destruct Hl as [b ->].
  pose proof (worker_step_delay _ _ _ _ _ Hs) as (_ & Hb).
  destruct b; [cbn in Hb; destruct Hb; congruence|].
  exists rest. split; [reflexivity|]. cbn in Htgt. split.
  - apply (path_past_delay _ _ _ Hp1). now rewrite Htgt.
  - destruct rest as [|l1 rest']; [now left|right].
    destruct (path_head _ _ _ _ AtInterval Hp1 Htgt)
      as (Hsrc1 & e1 & e1' & w2 & Hs1 & _).
    pose proof (src_inv l1) as Hl. rewrite Hsrc1 in Hl. destruct Hl as [i ->].
    apply worker_step_inv in Hs1 as (_ & _ & _ & _ & [-> _] & _).
    apply worker_step_inv in Hs as (_ & _ & Hc & _).
    exists rest'. now rewrite Hc.
Qed.

End DelayPhase.

Lemma delay_lasts_until_elapsed_witness :
  (1 <= 2)%nat /\
  Py.lt (Loop.ticks 2) Py.f_0_1 = false /\
  forall j, (j < 2)%nat -> Py.lt (Loop.ticks j) Py.f_0_1 = true.
Proof.
  apply (delay_lasts_until_elapsed (Callable:=nat)
           (Engine.CallStart Py.f_10_0 Py.f_0_1 :: repeat (Engine.Step 0) 6)
           Py.f_10_0 Py.f_0_1 0%nat
           [Engine.LDelayTest true;
            Engine.LPoll Engine.Delay false;
            Engine.LSleep Engine.Delay Py.f_0_05;
            Engine.LPoll Engine.Delay false;
            Engine.LSleep Engine.Delay Py.f_0_05]
           []).
  - apply list_elem_of_here.
  - reflexivity.
Defined.

Lemma nonpositive_rate_sleeps_a_tenth_witness :
  exists n cb m,
    [Engine.LCount 1; Engine.LCallback None 1;
     Engine.LSleep Engine.Repeat Py.f_0_1; Engine.LPoll Engine.Repeat false]
    = [Engine.LCount n; Engine.LCallback (Callable:=nat) cb m;
       Engine.LSleep Engine.Repeat Py.f_0_1;
       Engine.LPoll Engine.Repeat false].
Proof.
  apply (nonpositive_rate_sleeps_a_tenth (Callable:=nat)
           (Engine.CallStart Py.nan Py.zero :: repeat (Engine.Step 0) 9)
           Py.nan Py.zero 0%nat
           [Engine.LDelayTest false; Engine.LInterval Py.f_0_1;
            Engine.LPoll Engine.Repeat false]
           _ []).
  - reflexivity.
  - apply list_elem_of_here.
  - reflexivity.
  - rewrite !not_elem_of_cons. repeat split; try discriminate.
    apply not_elem_of_nil.
Defined.

(* ===================================================================== *)
(** * More on the hotkey table                                            *)
(* ===================================================================== *)

Section HotkeyTableMore.
Import Py Hotkeys.
Context `{StrCase} {Handler Recorder : Type}.
Implicit Types (self m : HotkeyManager Handler Recorder).
Implicit Types (k : key) (c : Handler) (cb : Recorder).

Lemma unregister_unbound key_name m :
  callbacks m !! lower key_name = None -> unregister_hotkey key_name m = m.
Proof. unfold unregister_hotkey. now intros ->. Qed.

Lemma callbacks_unregister key_name m :
  callbacks (unregister_hotkey key_name m)
  = delete (lower key_name) (callbacks m).
Proof.
  unfold unregister_hotkey.
  destruct (callbacks m !! lower key_name) eqn:E; [reflexivity|].
  symmetry. now apply delete_id.
Qed.

(** X7. Unregistering a name under any capitalization removes what a
    registration stored: the table is the earlier one without that name,
    and the earlier one itself when the name was free; a release of the
    key, and a press while no recording is pending, then call nothing.
    Unregistering a name that is not bound changes nothing. *)
Theorem unregister_undoes_register m key_name key_name' c k :
  lower key_name' = lower key_name ->
  lower (_key_to_name k) = lower key_name ->
  let m' := unregister_hotkey key_name' (register_hotkey key_name c m) in
  callbacks m' = delete (lower key_name) (callbacks m) /\
  (callbacks m !! lower key_name = None -> callbacks m' = callbacks m) /\
  snd (_on_key_release k m') = [] /\
  (is_recording m = false -> snd (_on_key_press k m') = []) /\
  (callbacks m !! lower key_name = None ->
   unregister_hotkey key_name' m = m).
Proof.
  intros Hn Hk m'.
  assert (Ht : callbacks m' = delete (lower key_name) (callbacks m)).
  { subst m'. rewrite callbacks_unregister, callbacks_register, Hn.
    apply delete_insert_eq. }
  assert (Hl : callbacks m' !! lower key_name = None).
  { rewrite Ht. apply lookup_delete_eq. }
  repeat split.
  - exact Ht.
  - intros Hfree. rewrite Ht. now apply delete_id.
  - rewrite release_dispatches, Hk. unfold dispatch. now rewrite Hl.
  - intros Hr. rewrite press_not_recording.
    + rewrite Hk. unfold dispatch. now rewrite Hl.
    + subst m'. unfold unregister_hotkey.
      now destruct (callbacks _ !! lower key_name').
  - intros Hfree. apply unregister_unbound. now rewrite Hn.
Qed.

Lemma is_key_pressed_spec key_name m :
  is_key_pressed key_name m = true <-> lower key_name ∈ pressed_keys m.
Proof. unfold is_key_pressed. apply bool_decide_eq_true. Qed.

(** X8. A press that is dispatched marks the key as pressed, under every
    capitalization of its name, and a release unmarks it; neither touches
    the mark of a key with another name.  The press that a pending
    recording takes is not marked. *)
Theorem pressed_keys_follow_events m k key_name :
  lower key_name = lower (_key_to_name k) ->
  (is_recording m = false ->
   is_key_pressed key_name (fst (_on_key_press k m)) = true) /\
  is_key_pressed key_name (fst (_on_key_release k m)) = false /\
  (is_recording m = true ->
   pressed_keys (fst (_on_key_press k m)) = pressed_keys m) /\
  (forall other,
      lower other <> lower (_key_to_name k) ->
      is_key_pressed other (fst (_on_key_press k m)) = is_key_pressed other m /\
      is_key_pressed other (fst (_on_key_release k m))
      = is_key_pressed other m).
Proof.
  intros Hn. repeat split.
  - intros Hr. apply is_key_pressed_spec. unfold _on_key_press.
    rewrite Hr. cbn. rewrite Hn. apply elem_of_union_l.
    now apply elem_of_singleton.
  - apply bool_decide_eq_false. unfold _on_key_release. cbn.
    rewrite Hn. rewrite elem_of_difference, elem_of_singleton. tauto.
  - intros Hr. unfold _on_key_press. now rewrite Hr.
  - unfold is_key_pressed, _on_key_press.
    destruct (is_recording m); cbn; [reflexivity|].
    apply bool_decide_ext. rewrite elem_of_union, elem_of_singleton. tauto.
  - unfold is_key_pressed, _on_key_release. cbn.
    apply bool_decide_ext. rewrite elem_of_difference, elem_of_singleton.
    tauto.
Qed.

(** X9. Key events never change the table or the recording callback, and
    a release leaves the recording flag alone.  Each event makes at most
    one call, and none for a key whose lower-cased name is not bound
    (on a press: unless a recording is pending). *)
Theorem key_events_keep_the_table m k :
  callbacks (fst (_on_key_press k m)) = callbacks m /\
  callbacks (fst (_on_key_release k m)) = callbacks m /\
  recording_callback (fst (_on_key_press k m)) = recording_callback m /\
  recording_callback (fst (_on_key_release k m)) = recording_callback m /\
  is_recording (fst (_on_key_release k m)) = is_recording m /\
  (length (snd (_on_key_press k m)) <= 1)%nat /\
  (length (snd (_on_key_release k m)) <= 1)%nat /\
  (callbacks m !! lower (_key_to_name k) = None ->
   snd (_on_key_release k m) = [] /\
   (is_recording m = false -> snd (_on_key_press k m) = [])).
Proof.
  unfold _on_key_press, _on_key_release, dispatch.
  split; [now destruct (is_recording m)|]. split; [reflexivity|].
  split; [now destruct (is_recording m)|]. split; [reflexivity|].
  split; [reflexivity|]. split; [|split].
  - destruct (is_recording m); cbn.
    + destruct (recording_callback m); cbn; lia.
    + destruct (callbacks m !! lower (_key_to_name k)); cbn; lia.
  - cbn. destruct (callbacks m !! lower (_key_to_name k)); cbn; lia.
  - intros Hfree. cbn [snd fst callbacks set_pressed_keys].
    rewrite Hfree. split; [reflexivity|].
    now intros ->.
Qed.

(** X10. A mouse event calls a handler only for the left button: the one
    stored under "m1", with "press" or "release" as the button goes down
    or up.  It does so whether or not a recording is pending, wherever
    the pointer is, and always answers True. *)
Theorem mouse_dispatches_left_button_only m x y button pressed :
  fst (_on_mouse_click x y button pressed m) = true /\
  (button <> left -> snd (_on_mouse_click x y button pressed m) = []) /\
  (forall c, callbacks m !! "m1" = Some c ->
     snd (_on_mouse_click x y left pressed m)
     = [Handled c (if pressed then "press" else "release")]) /\
  (callbacks m !! "m1" = None ->
   snd (_on_mouse_click x y left pressed m) = []) /\
  (forall cb,
      snd (_on_mouse_click x y button pressed (start_recording cb m))
      = snd (_on_mouse_click x y button pressed m)).
Proof.
  unfold _on_mouse_click, dispatch. cbn. repeat split.
  - intros Hb. now destruct button.
  - intros c ->. now destruct pressed.
  - intros ->. now destruct pressed.
Qed.

End HotkeyTableMore.

Lemma unregister_undoes_register_witness :
  Hotkeys.callbacks
    (Hotkeys.unregister_hotkey (H:=Py.ascii_case) "f6"
       (Hotkeys.register_hotkey (H:=Py.ascii_case) "F6" 1%nat
          (Hotkeys.__init__ (Handler:=nat) (Recorder:=nat))))
  = delete (@Py.lower Py.ascii_case "F6")
      (Hotkeys.callbacks (Hotkeys.__init__ (Handler:=nat) (Recorder:=nat))).
Proof.
  exact (proj1 (unregister_undoes_register (H:=Py.ascii_case)
                  Hotkeys.__init__ "F6" "f6" 1%nat (Hotkeys.Key "f6")
                  eq_refl eq_refl)).
Defined.

Lemma pressed_keys_follow_events_witness :
  Hotkeys.is_key_pressed (H:=Py.ascii_case) "f6"
    (fst (Hotkeys._on_key_release (H:=Py.ascii_case) (Hotkeys.Key "f6")
            (fst (Hotkeys._on_key_press (H:=Py.ascii_case) (Hotkeys.Key "f6")
                    (Hotkeys.__init__ (Handler:=nat) (Recorder:=nat))))))
  = false.
Proof.
  exact (proj1 (proj2 (pressed_keys_follow_events (H:=Py.ascii_case)
           (fst (Hotkeys._on_key_press (H:=Py.ascii_case) (Hotkeys.Key "f6")
                   Hotkeys.__init__))
           (Hotkeys.Key "f6") "f6" eq_refl))).
Defined.

(* ===================================================================== *)
(** * The window: fields, toggles, handlers                               *)
(* ===================================================================== *)

Section WindowLogic.
Import Py Gui Window.
Context `{StrCase}.
Implicit Types (self : AutoClickerGUI) (fields : Fields).

Lemma get_float_value_with_good_default value default :
  le default zero = false ->
  exists r,
    _get_float_value value default = Returns r /\
    le r zero = false /\
    (r = default \/ float_of_str value = Returns r).
Proof.
  intros Hd. rewrite get_float_value_returns.
  destruct (float_of_str value) as [r|x]; [|eauto].
  destruct (le r zero) eqn:E; eauto.
Qed.

(** X11. Given a default that is not [<= 0], [_get_float_value] returns
    (it never raises) a number that is not [<= 0]: the default itself or
    the number the text parses to. *)
Theorem get_float_value_is_never_at_most_zero value default :
  le default zero = false ->
  exists r,
    _get_float_value value default = Returns r /\
    le r zero = false /\
    (r = default \/ float_of_str value = Returns r).
Proof. apply get_float_value_with_good_default. Qed.

Lemma get_float_value_10 value :
  exists r, _get_float_value value f_10_0 = Returns r /\ le r zero = false.
Proof.
  destruct (get_float_value_with_good_default value f_10_0 eq_refl)
    as (r & Hr & Hp & _). eauto.
Qed.

(** X12. [_toggle_autoclick] never raises and never opens its error box.
    On a clicking engine it stops it; otherwise it starts a worker whose
    rate and delay are what the two fields give, neither of them
    [<= 0], with the stop signal cleared.  Either way the engine's flag
    is flipped. *)
Theorem toggle_autoclick_alternates fields tid self :
  exists self' eff,
    _toggle_autoclick fields tid self = Returns (self', eff) /\
    error_shown eff = false /\
    scheduled eff = [] /\
    Engine.is_clicking (engine self')
    = negb (Engine.is_clicking (engine self)) /\
    if Engine.is_clicking (engine self) then
      engine self' = Engine.stop_clicking (engine self) /\
      started eff = None /\
      autoclick_start_btn self' = ShowsStart /\
      status_label self' = StatusInactive
    else
      exists cps delay,
        _get_float_value (autoclick_cps_var fields) f_10_0 = Returns cps /\
        _get_float_value (autoclick_delay_var fields) f_1_0 = Returns delay /\
        le cps zero = false /\ le delay zero = false /\
        started eff = Some (Engine.spawn cps delay) /\
        Engine._stop_event (engine self') = false /\
        Engine.click_count (engine self') = Engine.click_count (engine self) /\
        autoclick_start_btn self' = ShowsStop /\
        status_label self' = StatusClicking.
Proof.
  unfold _toggle_autoclick.
  destruct (Engine.is_clicking (engine self)) eqn:Hc.
  - eexists _, _. split; [reflexivity|]. cbn. auto 10.
  - destruct (get_float_value_with_good_default
                (autoclick_cps_var fields) f_10_0 eq_refl)
      as (cps & -> & Hcps & _).
    destruct (get_float_value_with_good_default
                (autoclick_delay_var fields) f_1_0 eq_refl)
      as (delay & -> & Hdelay & _).
    unfold Engine.start_clicking. rewrite Hc.
    eexists _, _. split; [reflexivity|]. cbn.
    repeat split. exists cps, delay. auto 10.
Qed.

(** X13. [_toggle_keybind] and [_toggle_normal] flip the one enable flag
    they share and set their mode.  Switching on leaves the engine alone
    and shows the mode's text; switching off stops the engine.  Because
    the flag is shared, toggling one mode while the other is on switches
    off. *)
Theorem mode_toggles_share_the_flag self :
  (is_active (_toggle_keybind self) = negb (is_active self) /\
   current_mode (_toggle_keybind self) = KEYBIND /\
   is_active (_toggle_normal self) = negb (is_active self) /\
   current_mode (_toggle_normal self) = NORMAL) /\
  (is_active self = false ->
   engine (_toggle_keybind self) = engine self /\
   engine (_toggle_normal self) = engine self /\
   keybind_enable_btn (_toggle_keybind self) = ShowsDisable /\
   normal_enable_btn (_toggle_normal self) = ShowsDisable /\
   status_label (_toggle_keybind self)
   = StatusMode ("Keybind Mode Active - Hold "
                 +:+ autoclick_hotkey (keybind_settings self)) /\
   status_label (_toggle_normal self)
   = StatusMode "Normal Mode Active - Hold M1 to Click") /\
  (is_active self = true ->
   engine (_toggle_keybind self) = Engine.stop_clicking (engine self) /\
   engine (_toggle_normal self) = Engine.stop_clicking (engine self) /\
   keybind_enable_btn (_toggle_keybind self) = ShowsEnable /\
   normal_enable_btn (_toggle_normal self) = ShowsEnable /\
   status_label (_toggle_keybind self) = StatusInactive /\
   status_label (_toggle_normal self) = StatusInactive) /\
  (is_active (_toggle_normal (_toggle_keybind self)) = is_active self /\
   current_mode (_toggle_normal (_toggle_keybind self)) = NORMAL /\
   Engine._stop_event (engine (_toggle_keybind (_toggle_keybind self)))
   = true).
Proof.
  unfold _toggle_keybind, _toggle_normal.
  destruct (is_active self) eqn:Ha; cbn; rewrite ?Ha; cbn;
    repeat split; try discriminate; try reflexivity.
Qed.

(** X14. What [_setup_hotkeys] leaves in the table, by lower-cased name:
    the normal-mode handler under "m1"; the keybind handler under its
    key unless that is "m1"; the autoclick handler under the kill hotkey
    unless that names the keybind key or "m1", in which case the
    autoclick handler is bound nowhere; and nothing under any other
    name. *)
Theorem setup_hotkeys_table self :
  let t := Hotkeys.callbacks (hotkey_manager (_setup_hotkeys self)) in
  let kill := lower (kill_hotkey (autoclick_settings self)) in
  let kb := lower (autoclick_hotkey (keybind_settings self)) in
  let m1 := lower "m1" in
  t !! m1 = Some normal_mode_handler /\
  (kb <> m1 -> t !! kb = Some keybind_hotkey_handler) /\
  (kill <> kb -> kill <> m1 -> t !! kill = Some autoclick_hotkey_handler) /\
  (kill = kb \/ kill = m1 ->
   forall n, t !! n <> Some autoclick_hotkey_handler) /\
  (forall n, n <> kill -> n <> kb -> n <> m1 -> t !! n = None).
Proof.
  cbn zeta. unfold _setup_hotkeys.
  cbn [hotkey_manager set_hotkey_manager].
  rewrite !callbacks_register.
  cbn [Hotkeys.callbacks Hotkeys.set_callbacks].
  set (kill := lower (kill_hotkey (autoclick_settings self))).
  set (kb := lower (autoclick_hotkey (keybind_settings self))).
  set (m1 := lower "m1").
  repeat split.
  - apply lookup_insert_eq.
  - intros Hne. rewrite lookup_insert_ne by congruence.
    apply lookup_insert_eq.
  - intros H1 H2. rewrite !lookup_insert_ne by congruence.
    apply lookup_insert_eq.
  - intros Hsh n Hn.
    destruct (decide (m1 = n)) as [<-|Hn1].
    { rewrite lookup_insert_eq in Hn. discriminate. }
    rewrite lookup_insert_ne in Hn by assumption.
    destruct (decide (kb = n)) as [<-|Hn2].
    { rewrite lookup_insert_eq in Hn. discriminate. }
    rewrite lookup_insert_ne in Hn by assumption.
    destruct (decide (kill = n)) as [<-|Hn3].
    { destruct Hsh; congruence. }
    rewrite lookup_insert_ne in Hn by assumption.
    now rewrite lookup_empty in Hn.
  - intros n H1 H2 H3. rewrite !lookup_insert_ne by congruence.
    apply lookup_empty.
Qed.

Lemma set_hotkey_keeps_engine mode key_name self :
  engine (_set_hotkey mode key_name self) = engine self /\
  is_active (_set_hotkey mode key_name self) = is_active self /\
  current_mode (_set_hotkey mode key_name self) = current_mode self.
Proof.
  unfold _set_hotkey.
  destruct (String.eqb mode "autoclick"); [repeat split|].
  destruct (String.eqb mode "keybind"); repeat split.
Qed.

Lemma call_inert fields tid inv self :
  is_active self = false ->
  inert_result self (call fields tid inv self).
Proof.
  intros Ha. unfold inert_result.
  destruct inv as [[| |] event_type|[mode] key_name];
    cbn [call call_handler].
  - unfold call_autoclick_hotkey_handler.
    destruct (String.eqb event_type "press"); cbn;
      [|eexists _, _; split; [reflexivity|]; cbn; auto 10].
    destruct (current_mode self) eqn:Hm; cbn;
      eexists _, _; (split; [reflexivity|]); cbn; auto 10.
  - unfold call_keybind_hotkey_handler. rewrite Ha. cbn.
    eexists _, _. split; [reflexivity|]. cbn. auto 10.
  - unfold call_normal_mode_handler. rewrite Ha. cbn.
    eexists _, _. split; [reflexivity|]. cbn. auto 10.
  - destruct (set_hotkey_keeps_engine mode key_name self) as (He & Hact & Hm).
    eexists _, _. split; [reflexivity|]. rewrite He, Hact, Hm.
    unfold nothing. cbn [started error_shown scheduled]. auto 10.
Qed.

Lemma call_all_inert fields tid invs self :
  is_active self = false ->
  inert_result self (call_all fields tid invs self).
Proof.
  intros Ha. destruct invs as [|inv invs]; cbn; [|now apply call_inert].
  eexists _, _. split; [reflexivity|]. cbn. auto 10.
Qed.

(** X15. While no mode is switched on, no key press, key release or
    mouse click starts or stops the engine: delivering it never raises,
    leaves the engine, the mode and the enable flag as they are and
    starts no worker; at most it queues one autoclick toggle for the main
    loop, and that only in autoclick mode.  This is the state every tab
    change leaves. *)
Theorem inputs_are_inert_while_disabled fields tid i self :
  is_active self = false ->
  inert_result self (deliver fields tid i self) /\
  inert_result (_on_tab_change self)
    (deliver fields tid i (_on_tab_change self)).
Proof.
  assert (G : forall g, is_active g = false ->
                        inert_result g (deliver fields tid i g)).
  { intros g Ha. destruct i as [k|k|x y button pressed]; cbn [deliver].
    - destruct (Hotkeys._on_key_press k (hotkey_manager g)) as [m invs].
      apply (call_all_inert fields tid invs (set_hotkey_manager m g) Ha).
    - destruct (Hotkeys._on_key_release k (hotkey_manager g)) as [m invs].
      apply (call_all_inert fields tid invs (set_hotkey_manager m g) Ha).
    - now apply call_all_inert. }
  intros Ha. split; [now apply G|]. now apply G.
Qed.

(** X16. With keybind mode switched on and no recording pending, the key
    bound to the keybind handler clicks while it is held: its press on an
    idle engine starts a worker at the rate the field gives (never
    [<= 0]) with no delay; a further press while the engine clicks (key
    repeat) changes nothing; its release stops the engine. *)
Theorem keybind_key_clicks_while_held fields tid k self :
  is_active self = true ->
  current_mode self = KEYBIND ->
  Hotkeys.is_recording (hotkey_manager self) = false ->
  Hotkeys.callbacks (hotkey_manager self)
    !! lower (Hotkeys._key_to_name k) = Some keybind_hotkey_handler ->
  (exists self' eff,
      deliver fields tid (KeyPress k) self = Returns (self', eff) /\
      if Engine.is_clicking (engine self) then
        engine self' = engine self /\ started eff = None
      else
        exists cps,
          _get_float_value (keybind_cps_var fields) f_10_0 = Returns cps /\
          le cps zero = false /\
          started eff = Some (Engine.spawn cps zero) /\
          Engine.is_clicking (engine self') = true /\
          Engine._stop_event (engine self') = false /\
          status_label self' = StatusClicking) /\
  (exists self',
      deliver fields tid (KeyRelease k) self = Returns (self', nothing) /\
      engine self' = Engine.stop_clicking (engine self) /\
      status_label self' = StatusInactive).
Proof.
  intros Ha Hm Hr Hb. split.
  - cbn [deliver]. unfold Hotkeys._on_key_press. rewrite Hr.
    cbn zeta. unfold Hotkeys.dispatch.
    cbn [Hotkeys.callbacks Hotkeys.set_pressed_keys]. rewrite Hb.
    cbn [call_all call call_handler].
    unfold call_keybind_hotkey_handler.
    cbn [is_active current_mode set_hotkey_manager]. rewrite Ha, Hm.
    cbn [negb orb ClickMode_eqb]. unfold hold_to_click.
    cbn [String.eqb Ascii.eqb Bool.eqb engine set_hotkey_manager].
    destruct (Engine.is_clicking (engine self)) eqn:Hc; cbn [negb].
    + eexists _, _. split; [reflexivity|]. now split.
    + destruct (get_float_value_10 (keybind_cps_var fields))
        as (cps & -> & Hcps).
      unfold Engine.start_clicking. rewrite Hc.
      eexists _, _. split; [reflexivity|]. exists cps. cbn. auto 10.
  - cbn [deliver]. unfold Hotkeys._on_key_release.
    cbn zeta. unfold Hotkeys.dispatch.
    cbn [Hotkeys.callbacks Hotkeys.set_pressed_keys]. rewrite Hb.
    cbn [call_all call call_handler].
    unfold call_keybind_hotkey_handler.
    cbn [is_active current_mode set_hotkey_manager]. rewrite Ha, Hm.
    cbn [negb orb ClickMode_eqb]. unfold hold_to_click.
    cbn [String.eqb Ascii.eqb Bool.eqb].
    eexists. split; [reflexivity|]. now split.
Qed.

(** X17. With normal mode switched on and its handler under "m1", the
    left mouse button clicks while it is held, recording or not: pressed
    on an idle engine it starts a worker at the rate and with the delay
    the fields give (neither [<= 0]), released it stops the engine.  No
    other button does anything. *)
Theorem left_button_clicks_while_held fields tid x y self :
  is_active self = true ->
  current_mode self = NORMAL ->
  Hotkeys.callbacks (hotkey_manager self) !! "m1"
  = Some normal_mode_handler ->
  (Engine.is_clicking (engine self) = false ->
   exists self' cps delay,
     deliver fields tid (MouseClick x y Hotkeys.left true) self
     = Returns (self', {| started := Some (Engine.spawn cps delay);
                          scheduled := []; error_shown := false |}) /\
     _get_float_value (normal_cps_var fields) f_10_0 = Returns cps /\
     _get_float_value (normal_delay_var fields) f_0_5 = Returns delay /\
     le cps zero = false /\ le delay zero = false /\
     Engine.is_clicking (engine self') = true) /\
  (Engine.is_clicking (engine self) = true ->
   deliver fields tid (MouseClick x y Hotkeys.left true) self
   = Returns (self, nothing)) /\
  (exists self',
      deliver fields tid (MouseClick x y Hotkeys.left false) self
      = Returns (self', nothing) /\
      engine self' = Engine.stop_clicking (engine self)) /\
  (forall button pressed,
      button <> Hotkeys.left ->
      deliver fields tid (MouseClick x y button pressed) self
      = Returns (self, nothing)).
Proof.
  intros Ha Hm Hb.
  assert (Hd : forall pressed,
             deliver fields tid (MouseClick x y Hotkeys.left pressed) self
             = hold_to_click (if pressed then "press" else "release")
                 (_get_float_value (normal_cps_var fields) f_10_0)
                 (_get_float_value (normal_delay_var fields) f_0_5)
                 tid self).
  { intros pressed. cbn [deliver]. unfold Hotkeys._on_mouse_click.
    cbn [snd Hotkeys.Button_eqb]. unfold Hotkeys.dispatch.
    destruct pressed; rewrite Hb; cbn [call_all call call_handler];
      unfold call_normal_mode_handler; rewrite Ha, Hm; reflexivity. }
  repeat split.
  - intros Hc. rewrite Hd. unfold hold_to_click.
    cbn [String.eqb Ascii.eqb Bool.eqb]. rewrite Hc. cbn [negb].
    destruct (get_float_value_with_good_default
                (normal_cps_var fields) f_10_0 eq_refl)
      as (cps & -> & Hcps & _).
    destruct (get_float_value_with_good_default
                (normal_delay_var fields) f_0_5 eq_refl)
      as (delay & -> & Hdelay & _).
    unfold Engine.start_clicking. rewrite Hc.
    eexists _, cps, delay. split; [reflexivity|]. cbn. auto 10.
  - intros Hc. rewrite Hd. unfold hold_to_click.
    cbn [String.eqb Ascii.eqb Bool.eqb]. now rewrite Hc.
  - rewrite Hd. unfold hold_to_click. cbn [String.eqb Ascii.eqb Bool.eqb].
    eexists. split; reflexivity.
  - intros button pressed Hne. cbn [deliver]. unfold Hotkeys._on_mouse_click.
    cbn [snd]. now destruct button.
Qed.

(** X18. Rebinding through the window: [_record_hotkey] for a mode shows
    "Press key..." and arms the recorder; the next key press then calls
    no handler, makes the key's name that mode's hotkey (in the settings
    and on the button), ends the recording, rebuilds the table from the
    settings, and touches neither the engine nor the set of pressed
    keys.  For any other mode name [_record_hotkey] does nothing. *)
Theorem recorded_key_becomes_the_hotkey fields tid k self mode :
  let name := Hotkeys._key_to_name k in
  (mode = "autoclick"%string ->
   autoclick_hotkey_var (_record_hotkey mode self) = "Press key..."%string /\
   exists self',
     deliver fields tid (KeyPress k) (_record_hotkey mode self)
     = Returns (self', nothing) /\
     kill_hotkey (autoclick_settings self') = name /\
     autoclick_hotkey_var self' = name /\
     keybind_settings self' = keybind_settings self) /\
  (mode = "keybind"%string ->
   keybind_hotkey_var (_record_hotkey mode self) = "Press key..."%string /\
   exists self',
     deliver fields tid (KeyPress k) (_record_hotkey mode self)
     = Returns (self', nothing) /\
     autoclick_hotkey (keybind_settings self') = name /\
     keybind_hotkey_var self' = name /\
     autoclick_settings self' = autoclick_settings self) /\
  (mode = "autoclick"%string \/ mode = "keybind"%string ->
   exists self',
     deliver fields tid (KeyPress k) (_record_hotkey mode self)
     = Returns (self', nothing) /\
     self' = _setup_hotkeys self' /\
     Hotkeys.is_recording (hotkey_manager self') = false /\
     Hotkeys.pressed_keys (hotkey_manager self')
     = Hotkeys.pressed_keys (hotkey_manager self) /\
     engine self' = engine self /\
     is_active self' = is_active self /\
     current_mode self' = current_mode self) /\
  (mode <> "autoclick"%string -> mode <> "keybind"%string ->
   _record_hotkey mode self = self).
Proof.
  cbn zeta. split; [|split; [|split]].
  - intros ->. split; [reflexivity|].
    eexists. split; [reflexivity|]. cbn. auto.
  - intros ->. split; [reflexivity|].
    eexists. split; [reflexivity|]. cbn. auto.
  - intros [-> | ->]; (eexists; split; [reflexivity|]); cbn; auto 10.
  - intros H1 H2. unfold _record_hotkey.
    destruct (String.eqb_spec mode "autoclick"); [contradiction|].
    destruct (String.eqb_spec mode "keybind"); [contradiction|].
    reflexivity.
Qed.

End WindowLogic.

Lemma get_float_value_is_never_at_most_zero_witness :
  exists r,
    Gui._get_float_value "-3" Py.f_10_0 = Py.Returns r /\
    Py.le r Py.zero = false /\
    (r = Py.f_10_0 \/ Py.float_of_str "-3" = Py.Returns r).
Proof.
  apply (get_float_value_is_never_at_most_zero "-3" Py.f_10_0).
  reflexivity.
Defined.

(** ** The window on concrete inputs (ASCII case mapping, default fields) *)

Example default_window_holds_f7 :
  Window.started
    (match Window.deliver (H:=Py.ascii_case) Window.fields_init 0
             (Window.KeyPress (Hotkeys.Key "f7"))
             (Window._toggle_keybind (Window.__init__ (H:=Py.ascii_case)))
     with
     | Py.Returns (_, eff) => eff
     | Py.Raises _ => Window.nothing
     end)
  = Some (Engine.spawn Py.f_10_0 Py.zero).
Proof. reflexivity. Qed.

Lemma inputs_are_inert_while_disabled_witness :
  Window.inert_result (Window.__init__ (H:=Py.ascii_case))
    (Window.deliver (H:=Py.ascii_case) Window.fields_init 0
       (Window.KeyPress (Hotkeys.Key "f7"))
       (Window.__init__ (H:=Py.ascii_case))).
Proof.
  exact (proj1 (inputs_are_inert_while_disabled (H:=Py.ascii_case)
                  Window.fields_init 0%nat
                  (Window.KeyPress (Hotkeys.Key "f7"))
                  (Window.__init__ (H:=Py.ascii_case)) eq_refl)).
Defined.

Lemma keybind_key_clicks_while_held_witness :
  exists self',
    Window.deliver (H:=Py.ascii_case) Window.fields_init 0
      (Window.KeyRelease (Hotkeys.Key "f7"))
      (Window._toggle_keybind (Window.__init__ (H:=Py.ascii_case)))
    = Py.Returns (self', Window.nothing) /\
    Gui.engine self'
    = Engine.stop_clicking
        (Gui.engine
           (Window._toggle_keybind (Window.__init__ (H:=Py.ascii_case)))) /\
    Gui.status_label self' = Gui.StatusInactive.
Proof.
  exact (proj2 (keybind_key_clicks_while_held (H:=Py.ascii_case)
                  Window.fields_init 0%nat (Hotkeys.Key "f7")
                  (Window._toggle_keybind (Window.__init__ (H:=Py.ascii_case)))
                  eq_refl eq_refl eq_refl eq_refl)).
Defined.

Lemma left_button_clicks_while_held_witness :
  exists self',
    Window.deliver (H:=Py.ascii_case) Window.fields_init 0
      (Window.MouseClick 3 4 Hotkeys.left false)
      (Window._toggle_normal (Window.__init__ (H:=Py.ascii_case)))
    = Py.Returns (self', Window.nothing) /\
    Gui.engine self'
    = Engine.stop_clicking
        (Gui.engine
           (Window._toggle_normal (Window.__init__ (H:=Py.ascii_case)))).
Proof.
  exact (proj1 (proj2 (proj2
           (left_button_clicks_while_held (H:=Py.ascii_case)
              Window.fields_init 0%nat 3 4
              (Window._toggle_normal (Window.__init__ (H:=Py.ascii_case)))
              eq_refl eq_refl eq_refl)))).
Defined.

Lemma nonpositive_delay_is_skipped_witness :
  Engine.labels_of (Callable:=nat) 0
    (Engine.trace (Engine.CallStart Py.f_10_0 Py.nan
                   :: repeat (Engine.Step 0) 2)) = [] \/
  exists rest,
    Engine.labels_of 0
      (Engine.trace (Engine.CallStart Py.f_10_0 Py.nan
                     :: repeat (Engine.Step 0) 2))
    = Engine.LDelayTest (Callable:=nat) false :: rest /\
    (forall l, l ∈ rest -> Loop.past_delay (Engine.src l) = true) /\
    (rest = [] \/ exists rest',
        rest = Engine.LInterval (Engine.compute_interval Py.f_10_0) :: rest').
Proof.
  apply (nonpositive_delay_is_skipped (Callable:=nat)
           (Engine.CallStart Py.f_10_0 Py.nan :: repeat (Engine.Step 0) 2)
           Py.f_10_0 Py.nan 0%nat).
  - reflexivity.
  - apply list_elem_of_here.
Defined.

(* ===================================================================== *)
(** * Recording a key: one press goes to the recorder                     *)
(* ===================================================================== *)

Section OneShotRecording.
Import Py Gui Window.
Context `{StrCase}.
Implicit Types (self g : AutoClickerGUI) (fields : Fields).

Lemma update_status_keeps_manager b t self :
  hotkey_manager (_update_status b t self) = hotkey_manager self.
Proof.
  unfold _update_status. destruct b; [reflexivity|].
  now destruct t as [[|]|].
Qed.

Lemma hold_to_click_keeps_manager event_type c d tid self :
  exists self' eff,
    hold_to_click event_type (Returns c) (Returns d) tid self
    = Returns (self', eff) /\
    hotkey_manager self' = hotkey_manager self.
Proof.
  unfold hold_to_click.
  destruct (String.eqb event_type "press").
  - destruct (negb (Engine.is_clicking (engine self)));
      [|eexists _, _; split; reflexivity].
    destruct (Engine.start_clicking c d tid (engine self)) as [e w].
    eexists _, _. split; [reflexivity|].
    now rewrite update_status_keeps_manager.
  - destruct (String.eqb event_type "release");
      [|eexists _, _; split; reflexivity].
    eexists _, _. split; [reflexivity|].
    now rewrite update_status_keeps_manager.
Qed.

(** No handler raises, and none touches the hotkey manager. *)
Lemma call_handler_keeps_manager fields tid h event_type self :
  exists self' eff,
    call_handler fields tid h event_type self = Returns (self', eff) /\
    hotkey_manager self' = hotkey_manager self.
Proof.
  destruct h; cbn [call_handler].
  - unfold call_autoclick_hotkey_handler.
    destruct (_ && _); eexists _, _; split; reflexivity.
  - unfold call_keybind_hotkey_handler.
    destruct (_ || _); [eexists _, _; split; reflexivity|].
    destruct (get_float_value_10 (keybind_cps_var fields)) as (c & -> & _).
    apply hold_to_click_keeps_manager.
  - unfold call_normal_mode_handler.
    destruct (_ || _); [eexists _, _; split; reflexivity|].
    destruct (get_float_value_10 (normal_cps_var fields)) as (c & -> & _).
    destruct (get_float_value_with_good_default
                (normal_delay_var fields) f_0_5 eq_refl) as (d & -> & _).
    apply hold_to_click_keeps_manager.
Qed.

(** A press that reaches the window while no recording is pending
    returns, and leaves the table and the recording flag as they are,
    whatever state the engine is in. *)
Lemma deliver_press_keeps_table fields tid k self :
  Hotkeys.is_recording (hotkey_manager self) = false ->
  exists self' eff,
    deliver fields tid (KeyPress k) self = Returns (self', eff) /\
    Hotkeys.callbacks (hotkey_manager self')
    = Hotkeys.callbacks (hotkey_manager self) /\
    Hotkeys.is_recording (hotkey_manager self') = false.
Proof.
  intros Hr. cbn [deliver]. unfold Hotkeys._on_key_press. rewrite Hr.
  cbn zeta. unfold Hotkeys.dispatch.
  cbn [Hotkeys.callbacks Hotkeys.set_pressed_keys].
  destruct (Hotkeys.callbacks (hotkey_manager self) !! _) as [h|];
    cbn [call_all call].
  - match goal with
    | |- context [call_handler fields tid h "press" ?g] =>
        destruct (call_handler_keeps_manager fields tid h "press" g)
          as (g' & eff & -> & Hm)
    end.
    eexists _, _. split; [reflexivity|]. rewrite Hm. cbn. now split.
  - eexists _, _. split; [reflexivity|]. cbn. now split.
Qed.

(** Presses delivered while no recording is pending are all looked up in
    the one table the window holds. *)
Lemma press_all_not_recording fields ks : forall tid self,
  Hotkeys.is_recording (hotkey_manager self) = false ->
  press_all fields tid ks self
  = map (fun k' =>
           match Hotkeys.callbacks (hotkey_manager self)
                 !! lower (Hotkeys._key_to_name k') with
           | Some h => [Hotkeys.Handled h "press"]
           | None => []
           end) ks.
Proof.
  induction ks as [|k ks IH]; intros tid self Hr; [reflexivity|].
  cbn [press_all map]. unfold calls_on_press.
  rewrite press_calls_the_bound_handler by exact Hr. f_equal.
  destruct (deliver_press_keeps_table fields tid k self Hr)
    as (g' & eff & -> & Ht & Hr').
  rewrite IH by exact Hr'. now rewrite Ht.
Qed.

(** C7. Recording is one-shot.  After [start_recording cb] the first key
    press calls [cb] with the key's name and nothing else, so no hotkey
    handler, registered for that key or not; it clears the recording
    flag and leaves the table and the set of pressed keys as they were.
    From then on the flag stays clear under every method but
    [start_recording], and a press that finds it clear is dispatched in
    the normal way: it marks the key as pressed and calls the handler the
    table holds at that moment for the key's lower-cased name, with
    "press", or nothing when the name is not bound.  In the window, where
    the recorder armed by [_record_hotkey] rebuilds the table inside the
    first press, every later press of a run of presses is looked up in
    the rebuilt table. *)
Theorem recording_is_one_shot {Handler Recorder : Type}
    (m : Hotkeys.HotkeyManager Handler Recorder) (cb : Recorder)
    (k : Hotkeys.key) fields tid self mode (ks : list Hotkeys.key) :
  mode = "autoclick"%string \/ mode = "keybind"%string ->
  let name := Hotkeys._key_to_name k in
  let m1 := Hotkeys.start_recording cb m in
  let m2 := fst (Hotkeys._on_key_press k m1) in
  snd (Hotkeys._on_key_press k m1) = [Hotkeys.Recorded cb name] /\
  (forall h event_type,
      Hotkeys.Handled h event_type ∉ snd (Hotkeys._on_key_press k m1)) /\
  Hotkeys.is_recording m2 = false /\
  Hotkeys.callbacks m2 = Hotkeys.callbacks m /\
  Hotkeys.pressed_keys m2 = Hotkeys.pressed_keys m /\
  (forall (m' : Hotkeys.HotkeyManager Handler Recorder) k' key_name c t,
      Hotkeys.is_recording m' = false ->
      Hotkeys.is_recording (fst (Hotkeys._on_key_press k' m')) = false /\
      Hotkeys.is_recording (fst (Hotkeys._on_key_release k' m')) = false /\
      Hotkeys.is_recording (Hotkeys.register_hotkey key_name c m') = false /\
      Hotkeys.is_recording (Hotkeys.unregister_hotkey key_name m') = false /\
      Hotkeys.is_recording (Hotkeys.set_callbacks t m') = false) /\
  (forall (m' : Hotkeys.HotkeyManager Handler Recorder) k',
      Hotkeys.is_recording m' = false ->
      let name' := lower (Hotkeys._key_to_name k') in
      (forall h,
          Hotkeys.callbacks m' !! name' = Some h ->
          snd (Hotkeys._on_key_press k' m') = [Hotkeys.Handled h "press"]) /\
      (Hotkeys.callbacks m' !! name' = None ->
       snd (Hotkeys._on_key_press k' m') = []) /\
      name' ∈ Hotkeys.pressed_keys (fst (Hotkeys._on_key_press k' m')) /\
      Hotkeys.callbacks (fst (Hotkeys._on_key_press k' m'))
      = Hotkeys.callbacks m') /\
  (let g0 := _record_hotkey mode self in
   let table :=
     Hotkeys.callbacks (hotkey_manager (_set_hotkey mode name self)) in
   (exists g1,
       deliver fields tid (KeyPress k) g0 = Returns (g1, nothing) /\
       Hotkeys.callbacks (hotkey_manager g1) = table /\
       Hotkeys.is_recording (hotkey_manager g1) = false) /\
   (forall g tid' k',
       Hotkeys.is_recording (hotkey_manager g) = false ->
       exists g' eff,
         deliver fields tid' (KeyPress k') g = Returns (g', eff) /\
         Hotkeys.callbacks (hotkey_manager g')
         = Hotkeys.callbacks (hotkey_manager g) /\
         Hotkeys.is_recording (hotkey_manager g') = false) /\
   press_all fields tid (k :: ks) g0
   = [Hotkeys.Recorded (set_hotkey_for mode) name]
     :: map (fun k' =>
               match table !! lower (Hotkeys._key_to_name k') with
               | Some h => [Hotkeys.Handled h "press"]
               | None => []
               end) ks).
Proof.
  intros Hmode. cbn zeta.
  split; [reflexivity|]. split.
  { intros h event_type. cbn. rewrite list_elem_of_singleton. congruence. }
  split; [reflexivity|]. split; [reflexivity|]. split; [reflexivity|].
  split.
  { intros m' k' key_name c t Hr. split; [apply press_keeps_callbacks|].
    split; [exact Hr|]. split; [exact Hr|]. split; [|exact Hr].
    unfold Hotkeys.unregister_hotkey.
    now destruct (Hotkeys.callbacks m' !! lower key_name). }
  split.
  { intros m' k' Hr.
    pose proof (press_calls_the_bound_handler k' m' Hr) as Hp.
    split; [intros h Hh; now rewrite Hp, Hh|].
    split; [intros Hn; now rewrite Hp, Hn|].
    unfold Hotkeys._on_key_press. rewrite Hr. cbn. split; [|reflexivity].
    apply elem_of_union_l. now apply elem_of_singleton. }
  assert (H1 : exists g1,
             deliver fields tid (KeyPress k) (_record_hotkey mode self)
             = Returns (g1, nothing) /\
             Hotkeys.callbacks (hotkey_manager g1)
             = Hotkeys.callbacks
                 (hotkey_manager
                    (_set_hotkey mode (Hotkeys._key_to_name k) self)) /\
             Hotkeys.is_recording (hotkey_manager g1) = false).
  { destruct Hmode as [-> | ->]; eexists; (split; [reflexivity|]);
      cbn; now split. }
  split; [exact H1|]. split.
  { intros g tid' k' Hr. now apply deliver_press_keeps_table. }
  destruct H1 as (g1 & Hd & Ht & Hr1).
  cbn [press_all]. rewrite Hd. cbn [started nothing].
  rewrite press_all_not_recording by exact Hr1. rewrite Ht. f_equal.
  unfold calls_on_press. destruct Hmode as [-> | ->]; reflexivity.
Qed.

End OneShotRecording.

(** The default window, rebinding the keybind hotkey to F8: the press of
    F8 goes to the recorder; the next press of F8 calls the keybind
    handler, and a press of F7, the hotkey before, calls nothing. *)
Lemma recording_is_one_shot_witness :
  Window.press_all (H:=Py.ascii_case) Window.fields_init 0
    [Hotkeys.Key "f8"; Hotkeys.Key "f8"; Hotkeys.Key "f7"]
    (Window._record_hotkey "keybind" (Window.__init__ (H:=Py.ascii_case)))
  = [[Hotkeys.Recorded (Gui.set_hotkey_for "keybind") "F8"];
     [Hotkeys.Handled Gui.keybind_hotkey_handler "press"];
     []].
Proof.
  exact (proj2 (proj2 (proj2 (proj2 (proj2 (proj2 (proj2 (proj2 (proj2
           (recording_is_one_shot (H:=Py.ascii_case)
              (Hotkeys.__init__ (Handler:=nat) (Recorder:=nat)) 7%nat
              (Hotkeys.Key "f8") Window.fields_init 0%nat
              (Window.__init__ (H:=Py.ascii_case)) "keybind"
              [Hotkeys.Key "f8"; Hotkeys.Key "f7"]
              (or_intror eq_refl))))))))))).
Defined.
